(** * Booking lifecycle of the listings app

    A shallow embedding of [listings/models.py], [listings/serializers.py]
    and [listings/views.py]: the price derived in [Booking.save], the
    serializer validation, the role-based queryset of [BookingViewSet], the
    [cancel] and [confirm] actions and [Listing.average_rating].

    Conventions.
    - A [date] is its proleptic Gregorian ordinal ([date.toordinal()]):
      comparison of dates is comparison of ordinals and
      [(d2 - d1).days] is the difference of ordinals.
    - A [DecimalField(max_digits=10, decimal_places=2)] value is the integer
      number of hundredths it denotes; [Decimal * int] is exact on such
      values (the product stays far below the 28 digits of the decimal
      context), so it is multiplication in [Z].
    - A user is its primary key; [request.user == obj.host] compares keys.
    - The database is a record of tables keyed by primary key, threaded
      through every operation that reads or writes it.  Of its checks the
      NOT NULL constraints are modelled; column widths and the order of
      the rows ([Meta.ordering]) are not.  An amount is an unbounded
      integer: where a statement needs an amount to be one that the ten
      digits of its column hold, it says so with [fits_max_digits].
    - The timestamps [created_at] and [updated_at] are not modelled:
      [updated_at] is [auto_now], so every save rewrites it.  A statement
      that a row is kept is about the columns of [BookingRow].
    - A call returns [Ok] with its result or [Raise]s an exception.
    - A Python [float] is an IEEE 754 binary64 value, a [spec_float] under
      the operations of precision 53 and exponent bound 1024. *)

From stdpp Require Import gmap strings list fin_maps pretty.
From Stdlib Require Import ZArith Lia Ascii SpecFloat.

Local Open Scope Z_scope.

(** ** Data model ([models.py]) *)

Definition User := nat.
Definition date := Z.
Definition Decimal := Z.

(** [Booking.STATUS_CHOICES] *)
Inductive Status := pending | confirmed | cancelled | completed.

Global Instance Status_eq_dec : EqDecision Status.
Proof. solve_decision. Defined.

(** The stored value of each choice. *)
Definition status_value (s : Status) : string :=
  match s with
  | pending => "pending"
  | confirmed => "confirmed"
  | cancelled => "cancelled"
  | completed => "completed"
  end.

(** [class Listing]: the columns the booking logic reads (the descriptive
    columns, title, address and so on, take no part in it). *)
Record Listing := mkListing {
  price_per_night : Decimal;
  max_guests : Z;
  is_available : bool;
  host : User
}.

(** [class Booking], as an object in memory.  [pk] is [None] until the first
    insert; [listing_id] is the foreign key and [listing] the related object
    it caches; the dates and [total_price] are [None] on an object on which
    they were never set (no column has a default). *)
Record Booking := mkBooking {
  pk : option nat;
  listing_id : option nat;
  listing : option Listing;
  guest : User;
  check_in : option date;
  check_out : option date;
  guests_count : Z;
  total_price : option Decimal;
  status : Status;
  special_requests : string
}.

Definition set_total_price (p : Decimal) (b : Booking) : Booking :=
  mkBooking (pk b) (listing_id b) (listing b) (guest b) (check_in b)
            (check_out b) (guests_count b) (Some p) (status b)
            (special_requests b).

Definition set_status (s : Status) (b : Booking) : Booking :=
  mkBooking (pk b) (listing_id b) (listing b) (guest b) (check_in b)
            (check_out b) (guests_count b) (total_price b) s
            (special_requests b).

Definition set_pk (k : nat) (b : Booking) : Booking :=
  mkBooking (Some k) (listing_id b) (listing b) (guest b) (check_in b)
            (check_out b) (guests_count b) (total_price b) (status b)
            (special_requests b).

(** A row of the bookings table: every column is declared without
    [null=True], so a row holds a value in each.  The columns [created_at]
    and [updated_at] are left out. *)
Record BookingRow := mkBookingRow {
  row_listing_id : nat;
  row_guest : User;
  row_check_in : date;
  row_check_out : date;
  row_guests_count : Z;
  row_total_price : Decimal;
  row_status : Status;
  row_special_requests : string
}.

(** [class Review]: a row of the reviews table. *)
Record Review := mkReview {
  review_listing_id : nat;
  review_booking_id : nat;
  review_guest : User;
  rating : Z;
  comment : string
}.

Record DB := mkDB {
  listings : gmap nat Listing;
  bookings : gmap nat BookingRow;
  reviews : gmap nat Review
}.

Definition set_bookings (t : gmap nat BookingRow) (db : DB) : DB :=
  mkDB (listings db) t (reviews db).

(** ** Exceptions and results *)

Inductive Exn :=
  | IntegrityError
  | RelatedObjectDoesNotExist
  | ZeroDivisionError
  | OverflowError.

Inductive Result (A : Type) :=
  | Ok (a : A)
  | Raise (e : Exn).
Arguments Ok {A} a.
Arguments Raise {A} e.

Global Instance Result_ret : MRet Result := fun _ a => Ok a.

Global Instance Result_bind : MBind Result := fun _ _ k r =>
  match r with
  | Ok a => k a
  | Raise e => Raise e
  end.

(** ** [Listing.average_rating] *)

(** A Python number: [0] is an [int], the quotient of two [int]s by [/] is a
    [float], an IEEE 754 binary64 value ([spec_float] at precision 53 and
    exponent bound 1024). *)
Inductive PyNumber :=
  | PyInt (n : Z)
  | PyFloat (f : spec_float).

(** An [int] as the operand of a division: the integer itself, unrounded. *)
Definition int_operand (n : Z) : spec_float :=
  match n with
  | Z0 => S754_zero false
  | Zpos p => S754_finite false p 0
  | Zneg p => S754_finite true p 0
  end.

(** [a / b] on [int]s: the quotient of the two integers rounded once, to the
    nearest binary64 with ties to even; a zero divisor and a quotient too
    large for a [float] raise. *)
Definition truediv (a b : Z) : Result spec_float :=
  if b =? 0 then Raise ZeroDivisionError
  else
    match SFdiv 53 1024 (int_operand a) (int_operand b) with
    | S754_infinity _ => Raise OverflowError
    | f => Ok f
    end.

(** [sum(...)], from [0], left to right. *)
Definition sum (l : list Z) : Z := fold_left Z.add l 0.

(** [self.reviews.all()]: the reviews whose listing is [k]. *)
Definition Listing_reviews (db : DB) (k : nat) : list Review :=
  filter (fun rv => review_listing_id rv = k) (map_to_list (reviews db)).*2.

(** The property [average_rating] of the listing of key [k]. *)
Definition average_rating (db : DB) (k : nat) : Result PyNumber :=
  let reviews := Listing_reviews db k in
  match reviews with
  | _ :: _ =>
      f ← truediv (sum (rating <$> reviews)) (Z.of_nat (length reviews));
      Ok (PyFloat f)
  | [] => Ok (PyInt 0)
  end.

(** The number [v] is exactly the fraction [p / q] (for [0 < q]). *)
Definition is_fraction (v : PyNumber) (p q : Z) : Prop :=
  match v with
  | PyInt i => i * q = p
  | PyFloat (S754_zero _) => p = 0
  | PyFloat (S754_finite sg m e) =>
      let sm := if sg then Zneg m else Zpos m in
      if 0 <=? e then sm * 2 ^ e * q = p else sm * q = p * 2 ^ (- e)
  | PyFloat _ => False
  end.

(** The float [f] is [+0.0] and [p = 0], or it is a positive normal
    binary64 [m * 2^e] with [|m * 2^e - p / q| <= 2^e / 2]: at most half a
    unit in the last place, a relative error of at most [2^-53]. *)
Definition is_rounded_fraction (f : spec_float) (p q : Z) : Prop :=
  match f with
  | S754_zero false => p = 0
  | S754_finite false m e =>
      bounded 53 1024 m e = true /\ 2 ^ 52 <= Zpos m < 2 ^ 53 /\ e < 0 /\
      Z.abs (2 * (Zpos m * q - p * 2 ^ (- e))) <= q
  | _ => False
  end.

(** Where the quotient lies between [m] and [m + 1], for the fraction
    [N / D]: what a [location] records. *)
Definition loc_ok (m N D : Z) (l : location) : Prop :=
  match l with
  | loc_Exact => N = m * D
  | loc_Inexact Lt => m * D < N /\ 2 * N < (2 * m + 1) * D
  | loc_Inexact Eq => 2 * N = (2 * m + 1) * D
  | loc_Inexact Gt => (2 * m + 1) * D < 2 * N /\ N < (m + 1) * D
  end.

(** ** Persistence: [models.Model.save] *)

(** The row written for an object; a missing value in a NOT NULL column
    makes the write fail. *)
Definition to_row (b : Booking) : option BookingRow :=
  match listing_id b, check_in b, check_out b, total_price b with
  | Some l, Some ci, Some co, Some p =>
      Some (mkBookingRow l (guest b) ci co (guests_count b) p (status b)
                         (special_requests b))
  | _, _, _, _ => None
  end.

(** [super().save()]: update the row of the object's key, or insert the
    object under a key of the database's choice, one that no row has, when
    it has none. *)
Definition Model_save (b : Booking) (db : DB) : Result (Booking * DB) :=
  match to_row b with
  | None => Raise IntegrityError
  | Some r =>
      match pk b with
      | Some k => Ok (b, set_bookings (<[k := r]> (bookings db)) db)
      | None =>
          let k := fresh (dom (bookings db)) in
          Ok (set_pk k b, set_bookings (<[k := r]> (bookings db)) db)
      end
  end.

(** ** [Booking.save] *)

(** The object as [save] leaves it before it calls [super().save()].
    [self.listing] is only read when both dates are truthy, and raises on
    an object without a listing. *)
Definition Booking_price (b : Booking) : Result Booking :=
  match check_in b, check_out b with
  | Some ci, Some co =>
      match listing b with
      | Some l =>
          let nights := co - ci in
          if 0 <? nights
          then Ok (set_total_price (price_per_night l * nights) b)
          else Ok b
      | None => Raise RelatedObjectDoesNotExist
      end
  | _, _ => Ok b
  end.

Definition Booking_save (b : Booking) (db : DB) : Result (Booking * DB) :=
  b' ← Booking_price b;
  Model_save b' db.

(** The price a save leaves on a stored booking: recomputed from the
    listing when the stay has a positive number of nights, else kept. *)
Definition saved_price (l : Listing) (r : BookingRow) : Decimal :=
  if 0 <? row_check_out r - row_check_in r
  then price_per_night l * (row_check_out r - row_check_in r)
  else row_total_price r.

Definition saved_row (l : Listing) (s : Status) (r : BookingRow) : BookingRow :=
  mkBookingRow (row_listing_id r) (row_guest r) (row_check_in r)
               (row_check_out r) (row_guests_count r) (saved_price l r) s
               (row_special_requests r).

(** [max_digits=10, decimal_places=2]: the amounts, in hundredths, that
    the column [total_price] and its serializer field hold.  A wider
    amount cannot be read back from the table nor rendered in a
    response. *)
Definition fits_max_digits (p : Decimal) : bool := Z.abs p <? 10 ^ 10.

(** ** Serializers ([serializers.py]) *)

(** The body of a write request, after parsing: the listing is named by its
    primary key. *)
Record RequestData := mkRequestData {
  data_listing : nat;
  data_check_in : date;
  data_check_out : date;
  data_guests_count : Z;
  data_special_requests : string
}.

(** The dictionary [data] handed to [validate]: [data['listing']] is the
    listing object found for the key. *)
Record Attrs := mkAttrs {
  attrs_listing_id : nat;
  attrs_listing : Listing;
  attrs_check_in : date;
  attrs_check_out : date;
  attrs_guests_count : Z;
  attrs_special_requests : string
}.

Inductive ValidationError :=
  | FieldError (field : string)
  | NonFieldError (msg : string).

Inductive SerializerClass := BookingSerializer | BookingCreateSerializer.

(** Field validation, common to both serializers: the primary key must name
    a listing ([queryset=Listing.objects.all()]) and [guests_count], a
    [PositiveIntegerField], must not be negative.  The field is also
    bounded above by the integer range of the database backend, which the
    sources do not fix (2147483647 is within the range of every backend of
    Django); that bound is not checked here. *)
Definition to_internal_value (d : RequestData) (db : DB)
  : ValidationError + Attrs :=
  match listings db !! data_listing d with
  | None => inl (FieldError "listing")
  | Some l =>
      if data_guests_count d <? 0 then inl (FieldError "guests_count")
      else inr (mkAttrs (data_listing d) l (data_check_in d)
                        (data_check_out d) (data_guests_count d)
                        (data_special_requests d))
  end.

(** [BookingSerializer.validate] *)
Definition BookingSerializer_validate (data : Attrs)
  : ValidationError + Attrs :=
  if attrs_check_out data <=? attrs_check_in data then
    inl (NonFieldError "Check-out date must be after check-in date")
  else if max_guests (attrs_listing data) <? attrs_guests_count data then
    inl (NonFieldError ("Maximum guests allowed is "
                        +:+ pretty (max_guests (attrs_listing data))))
  else if negb (is_available (attrs_listing data)) then
    inl (NonFieldError "This listing is not available")
  else inr data.

(** The [validate] hook of each class: [BookingCreateSerializer] defines
    none and inherits the one that returns its argument. *)
Definition Serializer_validate (cls : SerializerClass) (data : Attrs)
  : ValidationError + Attrs :=
  match cls with
  | BookingSerializer => BookingSerializer_validate data
  | BookingCreateSerializer => inr data
  end.

(** [serializer.is_valid()] *)
Definition run_validation (cls : SerializerClass) (d : RequestData) (db : DB)
  : ValidationError + Attrs :=
  match to_internal_value d db with
  | inl e => inl e
  | inr data => Serializer_validate cls data
  end.

(** [serializer.save(guest=user)] on a serializer without an instance: a
    [Booking] built from the validated data and the guest is saved.
    [status] takes its default, and [total_price] is not among the fields
    of the serializer. *)
Definition new_booking (u : User) (data : Attrs) : Booking :=
  mkBooking None (Some (attrs_listing_id data)) (Some (attrs_listing data)) u
            (Some (attrs_check_in data)) (Some (attrs_check_out data))
            (attrs_guests_count data) None pending
            (attrs_special_requests data).

Definition Serializer_save (u : User) (data : Attrs) (db : DB)
  : Result (Booking * DB) :=
  Booking_save (new_booking u data) db.

(** ** Views ([views.py]) *)

(** What the views read of a request: the authenticated user and the two
    query parameters of the booking collection. *)
Record Request := mkRequest {
  user : User;
  param_status : option string;
  param_upcoming : option string
}.

Inductive Body :=
  | Detail (msg : string)
  | NotFound
  | PermissionDenied
  | Invalid (e : ValidationError)
  | Data (b : Booking).

Record Response := mkResponse {
  status_code : Z;
  data : Body
}.

Definition HTTP_200_OK := 200.
Definition HTTP_201_CREATED := 201.
Definition HTTP_400_BAD_REQUEST := 400.
Definition HTTP_403_FORBIDDEN := 403.
Definition HTTP_404_NOT_FOUND := 404.

(** [str.lower], on the ASCII letters (no other character lowers to a
    letter of ["true"], the one word the result is compared with). *)
Definition ascii_lower (c : ascii) : ascii :=
  let n := nat_of_ascii c in
  if (65 <=? n)%nat && (n <=? 90)%nat then ascii_of_nat (n + 32) else c.

Fixpoint lower (s : string) : string :=
  match s with
  | EmptyString => EmptyString
  | String c s' => String (ascii_lower c) (lower s')
  end.

(** [booking.listing.host]; reading [listing] raises when there is none. *)
Definition listing_host (b : Booking) : Result User :=
  match listing b with
  | Some l => Ok (host l)
  | None => Raise RelatedObjectDoesNotExist
  end.

(** [IsGuestOrHost.has_object_permission] *)
Definition has_object_permission (request : Request) (obj : Booking)
  : Result bool :=
  if decide (guest obj = user request) then Ok true
  else
    h ← listing_host obj;
    if decide (h = user request) then Ok true else Ok false.

(** *** Querysets *)

(** The object built from a row, with its listing joined in
    ([select_related('listing', ...)], an inner join: a row whose listing is
    missing is not selected). *)
Definition from_row (k : nat) (r : BookingRow) (l : Listing) : Booking :=
  mkBooking (Some k) (Some (row_listing_id r)) (Some l) (row_guest r)
            (Some (row_check_in r)) (Some (row_check_out r))
            (row_guests_count r) (Some (row_total_price r))
            (row_status r) (row_special_requests r).

Definition load_booking (db : DB) (k : nat) (r : BookingRow) : option Booking :=
  l ← listings db !! row_listing_id r;
  Some (from_row k r l).

(** [Booking.objects]: every booking of the table. *)
Definition Booking_objects (db : DB) : list Booking :=
  omap (fun kr => load_booking db kr.1 kr.2) (map_to_list (bookings db)).

(** A queryset is the condition it selects by; it is evaluated against the
    table when it is listed or asked for one object. *)
Definition QuerySet := Booking -> bool.

Definition qs_filter (c : Booking -> bool) (qs : QuerySet) : QuerySet :=
  fun b => qs b && c b.

Definition qs_list (db : DB) (qs : QuerySet) : list Booking :=
  filter (fun b => qs b) (Booking_objects db).

(** [queryset.get(pk=k)] *)
Definition qs_get (db : DB) (qs : QuerySet) (k : nat) : option Booking :=
  r ← bookings db !! k;
  b ← load_booking db k r;
  if qs b then Some b else None.

(** [Q(guest=user) | Q(listing__host=user)] *)
Definition guest_or_host (u : User) (b : Booking) : bool :=
  bool_decide (guest b = u)
  || bool_decide (host <$> listing b = Some u).

Definition truthy (s : option string) : bool :=
  match s with
  | Some (String _ _) => true
  | _ => false
  end.

(** [BookingViewSet.get_queryset]; [today] is [timezone.now().date()]. *)
Definition get_queryset (today : date) (request : Request) : QuerySet :=
  let queryset : QuerySet := guest_or_host (user request) in
  let queryset :=
    match param_status request with
    | Some status_filter =>
        if truthy (Some status_filter)
        then qs_filter (fun b => bool_decide (status_value (status b) = status_filter))
                       queryset
        else queryset
    | None => queryset
    end in
  let queryset :=
    match param_upcoming request with
    | Some upcoming =>
        if truthy (Some upcoming) && bool_decide (lower upcoming = "true")
        then qs_filter (fun b => match check_in b with
                                 | Some d => today <=? d
                                 | None => false
                                 end) queryset
        else queryset
    | None => queryset
    end in
  queryset.

(** [BookingViewSet.get_serializer_class] *)
Definition get_serializer_class (action : string) : SerializerClass :=
  if bool_decide (action ∈ ["create"; "update"; "partial_update"])
  then BookingCreateSerializer
  else BookingSerializer.

(** [self.get_object()]: look the key up in the view's queryset, then check
    the object permission.  A miss or a refusal ends the request with the
    response on the left. *)
Definition get_object (today : date) (request : Request) (k : nat) (db : DB)
  : Result (Response + Booking) :=
  match qs_get db (get_queryset today request) k with
  | None => Ok (inl (mkResponse HTTP_404_NOT_FOUND NotFound))
  | Some obj =>
      allowed ← has_object_permission request obj;
      if allowed : bool then Ok (inr obj)
      else Ok (inl (mkResponse HTTP_403_FORBIDDEN PermissionDenied))
  end.

(** The collection: [list]. *)
Definition BookingViewSet_list (today : date) (request : Request) (db : DB)
  : list Booking :=
  qs_list db (get_queryset today request).

(** [BookingViewSet.perform_create]: save with the requesting user as
    guest. *)
Definition perform_create (request : Request) (attrs : Attrs) (db : DB)
  : Result (Booking * DB) :=
  Serializer_save (user request) attrs db.

(** The [create] action: validate with the serializer class of the action
    (a failure is answered 400), then [perform_create].  The body of the
    201 stands for the saved object; the response itself renders the five
    fields of [BookingCreateSerializer], without the key, the guest, the
    status or the price. *)
Definition BookingViewSet_create (request : Request) (d : RequestData)
  (db : DB) : Result (Response * DB) :=
  match run_validation (get_serializer_class "create") d db with
  | inl e => Ok (mkResponse HTTP_400_BAD_REQUEST (Invalid e), db)
  | inr attrs =>
      '(b, db') ← perform_create request attrs db;
      Ok (mkResponse HTTP_201_CREATED (Data b), db')
  end.

(** The body of [cancel], from the object [get_object] returned. *)
Definition cancel_booking (request : Request) (booking : Booking) (db : DB)
  : Result (Response * DB) :=
  if decide (guest booking ≠ user request) then
    Ok (mkResponse HTTP_403_FORBIDDEN
                   (Detail "You can only cancel your own bookings."), db)
  else if decide (status booking = cancelled) then
    Ok (mkResponse HTTP_400_BAD_REQUEST
                   (Detail "Booking is already cancelled."), db)
  else
    '(b, db') ← Booking_save (set_status cancelled booking) db;
    Ok (mkResponse HTTP_200_OK (Data b), db').

(** The body of [confirm], from the object [get_object] returned. *)
Definition confirm_booking (request : Request) (booking : Booking) (db : DB)
  : Result (Response * DB) :=
  h ← listing_host booking;
  if decide (h ≠ user request) then
    Ok (mkResponse HTTP_403_FORBIDDEN
                   (Detail "Only the host can confirm bookings."), db)
  else if decide (status booking ≠ pending) then
    Ok (mkResponse HTTP_400_BAD_REQUEST
                   (Detail "Only pending bookings can be confirmed."), db)
  else
    '(b, db') ← Booking_save (set_status confirmed booking) db;
    Ok (mkResponse HTTP_200_OK (Data b), db').

(** [BookingViewSet.cancel] *)
Definition cancel (today : date) (request : Request) (k : nat) (db : DB)
  : Result (Response * DB) :=
  o ← get_object today request k db;
  match o with
  | inl resp => Ok (resp, db)
  | inr booking => cancel_booking request booking db
  end.

(** [BookingViewSet.confirm] *)
Definition confirm (today : date) (request : Request) (k : nat) (db : DB)
  : Result (Response * DB) :=
  o ← get_object today request k db;
  match o with
  | inl resp => Ok (resp, db)
  | inr booking => confirm_booking request booking db
  end.

(** ** Outcomes on stored rows *)

(** The validated data of a request whose key names listing [l]. *)
Definition attrs_of (d : RequestData) (l : Listing) : Attrs :=
  mkAttrs (data_listing d) l (data_check_in d) (data_check_out d)
          (data_guests_count d) (data_special_requests d).

(** What [cancel] and [confirm] do on the object of row [r] of key [k],
    whose listing is [l], written on the row. *)
Definition cancel_outcome (request : Request) (k : nat) (r : BookingRow)
  (l : Listing) (db : DB) : Result (Response * DB) :=
  if decide (row_guest r ≠ user request) then
    Ok (mkResponse HTTP_403_FORBIDDEN
                   (Detail "You can only cancel your own bookings."), db)
  else if decide (row_status r = cancelled) then
    Ok (mkResponse HTTP_400_BAD_REQUEST
                   (Detail "Booking is already cancelled."), db)
  else
    Ok (mkResponse HTTP_200_OK
          (Data (set_total_price (saved_price l r)
                   (set_status cancelled (from_row k r l)))),
        set_bookings (<[k := saved_row l cancelled r]> (bookings db)) db).

Definition confirm_outcome (request : Request) (k : nat) (r : BookingRow)
  (l : Listing) (db : DB) : Result (Response * DB) :=
  if decide (host l ≠ user request) then
    Ok (mkResponse HTTP_403_FORBIDDEN
                   (Detail "Only the host can confirm bookings."), db)
  else if decide (row_status r ≠ pending) then
    Ok (mkResponse HTTP_400_BAD_REQUEST
                   (Detail "Only pending bookings can be confirmed."), db)
  else
    Ok (mkResponse HTTP_200_OK
          (Data (set_total_price (saved_price l r)
                   (set_status confirmed (from_row k r l)))),
        set_bookings (<[k := saved_row l confirmed r]> (bookings db)) db).

(** ** The collection query, in the spec's words *)

(** The actor is the booking's guest or the host of its listing. *)
Definition visible_to (u : User) (b : Booking) : Prop :=
  guest b = u \/ host <$> listing b = Some u.

(** The [status] parameter, when given and not empty, names the booking's
    status. *)
Definition matches_status (request : Request) (b : Booking) : Prop :=
  forall s, param_status request = Some s -> s ≠ "" ->
            status_value (status b) = s.

(** The [upcoming] parameter, when it reads [true] in any letter case,
    keeps the bookings that check in today or later. *)
Definition matches_upcoming (today : date) (request : Request) (b : Booking)
  : Prop :=
  forall u, param_upcoming request = Some u -> lower u = "true" ->
            exists d, check_in b = Some d /\ today <= d.

(** ** Calendar dates, for examples *)

(** [date(y, m, d).toordinal()] *)
Definition is_leap (y : Z) : bool :=
  (y mod 4 =? 0) && (negb (y mod 100 =? 0) || (y mod 400 =? 0)).

Definition days_before_year (year : Z) : Z :=
  let y := year - 1 in y * 365 + y / 4 - y / 100 + y / 400.

Definition days_before_month (year month : Z) : Z :=
  nth (Z.to_nat month)
      [0; 0; 31; 59; 90; 120; 151; 181; 212; 243; 273; 304; 334] 0
  + (if (2 <? month) && is_leap year then 1 else 0).

Definition ymd (y m d : Z) : date :=
  days_before_year y + days_before_month y m + d.

(** ** A small database, for examples *)

(** A listing at 100.00 a night for up to four guests, owned by user 1. *)
Definition ex_listing : Listing := mkListing 10000 4 true 1%nat.

Definition ex_db : DB := mkDB {[ 1%nat := ex_listing ]} ∅ ∅.

(** User 2 asks for three nights from 2024-06-01, for two guests. *)
Definition ex_request : Request := mkRequest 2%nat None None.

Definition ex_data : RequestData :=
  mkRequestData 1%nat (ymd 2024 6 1) (ymd 2024 6 4) 2 "".

Definition ex_attrs : Attrs :=
  mkAttrs 1%nat ex_listing (ymd 2024 6 1) (ymd 2024 6 4) 2 "".

(** Booking 7: three nights booked by user 2 when the night cost 100.00. *)
Definition ex_row (s : Status) : BookingRow :=
  mkBookingRow 1%nat 2%nat (ymd 2024 6 1) (ymd 2024 6 4) 2 30000 s "".

(** The database once booking 7 is stored in status [s] and the night
    costs [price]. *)
Definition ex_db_booked (price : Decimal) (s : Status) : DB :=
  mkDB {[ 1%nat := mkListing price 4 true 1%nat ]} {[ 7%nat := ex_row s ]} ∅.

(** The host of listing 1. *)
Definition ex_host_request : Request := mkRequest 1%nat None None.



(** Listing 1 with three reviews, rated 1, 1 and 2. *)
Definition ex_db_reviewed : DB :=
  mkDB {[ 1%nat := ex_listing ]} ∅
       {[ 1%nat := mkReview 1%nat 11%nat 2%nat 1 "";
          2%nat := mkReview 1%nat 12%nat 3%nat 1 "";
          3%nat := mkReview 1%nat 13%nat 4%nat 2 "" ]}.

(** ** The other actions of the views *)

(** [serializer.save()] on a serializer with an instance: every validated
    field is set on the object (setting [listing] sets the key and the
    cached object), and the object is saved.  [guest], [status] and
    [total_price] are not fields of [BookingCreateSerializer]. *)
Definition set_attrs (instance : Booking) (attrs : Attrs) : Booking :=
  mkBooking (pk instance) (Some (attrs_listing_id attrs))
            (Some (attrs_listing attrs)) (guest instance)
            (Some (attrs_check_in attrs)) (Some (attrs_check_out attrs))
            (attrs_guests_count attrs) (total_price instance)
            (status instance) (attrs_special_requests attrs).

(** The [update] action of [BookingViewSet] (a PUT whose body gives every
    field): fetch the object, validate with the serializer class of the
    action, set the fields and save. *)
Definition BookingViewSet_update (today : date) (request : Request) (k : nat)
  (d : RequestData) (db : DB) : Result (Response * DB) :=
  o ← get_object today request k db;
  match o with
  | inl resp => Ok (resp, db)
  | inr instance =>
      match run_validation (get_serializer_class "update") d db with
      | inl e => Ok (mkResponse HTTP_400_BAD_REQUEST (Invalid e), db)
      | inr attrs =>
          '(b, db') ← Booking_save (set_attrs instance attrs) db;
          Ok (mkResponse HTTP_200_OK (Data b), db')
      end
  end.

(** The row an accepted update writes over row [r], for the listing [l']
    that the body names. *)
Definition updated_row (d : RequestData) (l' : Listing) (r : BookingRow)
  : BookingRow :=
  mkBookingRow (data_listing d) (row_guest r) (data_check_in d)
    (data_check_out d) (data_guests_count d)
    (if 0 <? data_check_out d - data_check_in d
     then price_per_night l' * (data_check_out d - data_check_in d)
     else row_total_price r)
    (row_status r) (data_special_requests d).

Definition HTTP_204_NO_CONTENT := 204.

(** [booking.delete()]: the row goes, and with it the reviews that point to
    it ([Review.booking] is declared [on_delete=models.CASCADE]). *)
Definition delete_booking (k : nat) (db : DB) : DB :=
  mkDB (listings db) (delete k (bookings db))
       (filter (fun kv => review_booking_id kv.2 ≠ k) (reviews db)).

(** The [destroy] action of [BookingViewSet]: fetch the object and delete
    it; the answer is a status without a body. *)
Definition BookingViewSet_destroy (today : date) (request : Request) (k : nat)
  (db : DB) : Result (Z * DB) :=
  o ← get_object today request k db;
  match o with
  | inl resp => Ok (status_code resp, db)
  | inr instance => Ok (HTTP_204_NO_CONTENT, delete_booking k db)
  end.

(** *** Reviews *)

(** A [Review] object in memory: [listing] and [booking] hold a key once
    they are set. *)
Record ReviewObject := mkReviewObject {
  obj_listing_id : option nat;
  obj_booking_id : option nat;
  obj_guest : User;
  obj_rating : Z;
  obj_comment : string
}.

(** The validated data of [ReviewSerializer]: of its fields only [rating]
    and [comment] are written ([id], [guest] and [created_at] are read
    only; [listing] and [booking] are not fields). *)
Record ReviewAttrs := mkReviewAttrs {
  attrs_rating : Z;
  attrs_comment : string
}.

(** [Review.save()]: insert the row; [listing] and [booking] are columns
    without [null=True]. *)
Definition Review_save (o : ReviewObject) (db : DB) : Result DB :=
  match obj_listing_id o, obj_booking_id o with
  | Some l, Some b =>
      Ok (mkDB (listings db) (bookings db)
               (<[fresh (dom (reviews db)) :=
                    mkReview l b (obj_guest o) (obj_rating o) (obj_comment o)]>
                  (reviews db)))
  | _, _ => Raise IntegrityError
  end.

(** [ReviewViewSet.perform_create]: [serializer.save(guest=request.user)]
    builds the review from the validated data and the guest, and saves
    it. *)
Definition Review_perform_create (request : Request) (attrs : ReviewAttrs)
  (db : DB) : Result DB :=
  Review_save (mkReviewObject None None (user request) (attrs_rating attrs)
                              (attrs_comment attrs)) db.

(** The [create] action of [ReviewViewSet], for a body of type [D] and the
    field validation [is_valid] of the serializer. *)
Definition ReviewViewSet_create {D : Type}
  (is_valid : D -> ValidationError + ReviewAttrs) (request : Request)
  (d : D) (db : DB) : Result (Z * DB) :=
  match is_valid d with
  | inl e => Ok (HTTP_400_BAD_REQUEST, db)
  | inr attrs =>
      db' ← Review_perform_create request attrs db;
      Ok (HTTP_201_CREATED, db')
  end.

(** ** Stored amounts *)

(** Every stored total price is an amount that its column holds, so that
    every row can be read back. *)
Definition prices_fit (db : DB) : bool :=
  bool_decide
    (map_Forall (fun _ r => fits_max_digits (row_total_price r) = true)
                (bookings db)).

(** ** Sequences of actions *)

(** A call of [cancel] or [confirm], with the date of the day and the
    request. *)
Inductive Action :=
  | Cancel (today : date) (request : Request) (k : nat)
  | Confirm (today : date) (request : Request) (k : nat).

Definition perform (a : Action) (db : DB) : Result (Response * DB) :=
  match a with
  | Cancel today request k => cancel today request k db
  | Confirm today request k => confirm today request k db
  end.

(** The database after a call; a call that raises has written nothing. *)
Definition step (db : DB) (a : Action) : DB :=
  match perform a db with
  | Ok (_, db') => db'
  | Raise _ => db
  end.

Definition run (actions : list Action) (db : DB) : DB :=
  fold_left step actions db.

(** The moves of a status that [cancel] and [confirm] make. *)
Definition moves_to (s s' : Status) : Prop :=
  s' = s \/ s' = cancelled \/ (s = pending /\ s' = confirmed).

(** * Properties *)

(** ** The store and the objects loaded from it *)

Lemma load_booking_Some db k r b :
  load_booking db k r = Some b <->
  exists l, listings db !! row_listing_id r = Some l /\ b = from_row k r l.
Proof.
  unfold load_booking. destruct (listings db !! row_listing_id r) as [l|]; simpl.
  - split.
    + intros [= <-]. eauto.
    + intros (l' & [= <-] & ->). reflexivity.
  - split; [discriminate | intros (l' & [=] & _)].
Qed.

Lemma elem_of_Booking_objects db b :
  b ∈ Booking_objects db <->
  exists k r, bookings db !! k = Some r /\ load_booking db k r = Some b.
Proof.
  unfold Booking_objects. rewrite list_elem_of_omap. split.
  - intros ([k r] & Hin & Hl). apply elem_of_map_to_list in Hin. eauto.
  - intros (k & r & Hk & Hl). exists (k, r). split; [|exact Hl].
    by apply elem_of_map_to_list.
Qed.

(** ** [Booking.save] *)

Lemma Booking_price_nights b l ci co :
  listing b = Some l -> check_in b = Some ci -> check_out b = Some co ->
  0 < co - ci ->
  Booking_price b = Ok (set_total_price (price_per_night l * (co - ci)) b).
Proof.
  intros Hl Hci Hco Hn. unfold Booking_price. rewrite Hci, Hco, Hl.
  destruct (Z.ltb_spec 0 (co - ci)); [reflexivity | lia].
Qed.

Lemma Booking_price_no_nights b l ci co :
  listing b = Some l -> check_in b = Some ci -> check_out b = Some co ->
  co - ci <= 0 ->
  Booking_price b = Ok b.
Proof.
  intros Hl Hci Hco Hn. unfold Booking_price. rewrite Hci, Hco, Hl.
  destruct (Z.ltb_spec 0 (co - ci)); [lia | reflexivity].
Qed.

Lemma Booking_save_nights b db l ci co :
  listing b = Some l -> check_in b = Some ci -> check_out b = Some co ->
  0 < co - ci ->
  Booking_save b db
  = Model_save (set_total_price (price_per_night l * (co - ci)) b) db.
Proof.
  intros Hl Hci Hco Hn. unfold Booking_save.
  by rewrite (Booking_price_nights b l ci co).
Qed.

Lemma Model_save_Ok b db b' db' :
  Model_save b db = Ok (b', db') ->
  exists k r, to_row b = Some r /\ pk b' = Some k /\
    total_price b' = total_price b /\ status b' = status b /\
    listings db' = listings db /\
    bookings db' = <[k := r]> (bookings db) /\
    (pk b = Some k \/ (pk b = None /\ bookings db !! k = None)).
Proof.
  unfold Model_save. destruct (to_row b) as [r|]; [|discriminate].
  destruct (pk b) as [k|] eqn:Hpk.
  - intros [= <- <-]. exists k, r. repeat split; auto.
  - intros [= <- <-]. exists (fresh (dom (bookings db))), r.
    repeat split; auto. right. split; [reflexivity|].
    apply not_elem_of_dom, is_fresh.
Qed.

(** Saving an object that was loaded from the store, after a change of
    status, always succeeds and rewrites its row. *)
Lemma Booking_save_loaded db k r l b s :
  listings db !! row_listing_id r = Some l ->
  load_booking db k r = Some b ->
  Booking_save (set_status s b) db
  = Ok (set_total_price (saved_price l r) (set_status s b),
        set_bookings (<[k := saved_row l s r]> (bookings db)) db).
Proof.
  intros Hl Hb. apply load_booking_Some in Hb as (l' & Hl' & ->).
  assert (l' = l) as -> by congruence.
  unfold Booking_save, Booking_price, saved_row, saved_price. simpl.
  destruct (0 <? row_check_out r - row_check_in r); reflexivity.
Qed.

(** ** [get_object] *)

Lemma has_object_permission_loaded db k r b request :
  load_booking db k r = Some b ->
  has_object_permission request b
  = Ok (guest_or_host (user request) b).
Proof.
  intros Hb. apply load_booking_Some in Hb as (l & Hl & ->).
  unfold has_object_permission, guest_or_host, listing_host. simpl.
  destruct (decide (row_guest r = user request)) as [Hg|Hg].
  - by rewrite (bool_decide_eq_true_2 _ Hg).
  - rewrite (bool_decide_eq_false_2 _ Hg). simpl.
    destruct (decide (host l = user request)) as [Hh|Hh].
    + rewrite bool_decide_eq_true_2; [reflexivity | congruence].
    + rewrite bool_decide_eq_false_2; [reflexivity | congruence].
Qed.

(** Every object of the view's queryset has the user as guest or host. *)
Lemma get_queryset_guest_or_host today request b :
  get_queryset today request b = true -> guest_or_host (user request) b = true.
Proof.
  unfold get_queryset, qs_filter.
  destruct (param_status request) as [st|], (param_upcoming request) as [up|];
    repeat match goal with
           | |- context [if ?c then _ else _] => destruct c
           end;
    intros H; repeat (apply andb_prop in H as [H _]); exact H.
Qed.

(** Without query parameters the queryset is the role filter alone. *)
Lemma get_queryset_plain today request :
  param_status request = None -> param_upcoming request = None ->
  get_queryset today request = guest_or_host (user request).
Proof. intros Hs Hu. unfold get_queryset. by rewrite Hs, Hu. Qed.

Lemma guest_or_host_guest k r l u :
  row_guest r = u -> guest_or_host u (from_row k r l) = true.
Proof.
  intros Hg. unfold guest_or_host. simpl.
  by rewrite (bool_decide_eq_true_2 _ Hg).
Qed.

Lemma guest_or_host_host k r l u :
  host l = u -> guest_or_host u (from_row k r l) = true.
Proof.
  intros Hh. unfold guest_or_host. simpl.
  rewrite (bool_decide_eq_true_2 (Some (host l) = Some u)) by congruence.
  apply orb_true_r.
Qed.

(** ** The actions on a stored booking *)

Lemma qs_get_stored db qs k r l :
  bookings db !! k = Some r -> listings db !! row_listing_id r = Some l ->
  qs_get db qs k = if qs (from_row k r l) then Some (from_row k r l) else None.
Proof.
  intros Hr Hl. unfold qs_get, load_booking. rewrite Hr. simpl.
  rewrite Hl. reflexivity.
Qed.

Lemma get_object_stored today request k db r l :
  bookings db !! k = Some r -> listings db !! row_listing_id r = Some l ->
  get_object today request k db
  = if get_queryset today request (from_row k r l)
    then Ok (inr (from_row k r l))
    else Ok (inl (mkResponse HTTP_404_NOT_FOUND NotFound)).
Proof.
  intros Hr Hl. unfold get_object. rewrite (qs_get_stored _ _ _ _ _ Hr Hl).
  destruct (get_queryset today request (from_row k r l)) eqn:Hq; [|reflexivity].
  assert (load_booking db k r = Some (from_row k r l)) as Hb.
  { apply load_booking_Some. eauto. }
  rewrite (has_object_permission_loaded db k r _ request Hb). simpl.
  by rewrite (get_queryset_guest_or_host _ _ _ Hq).
Qed.

Lemma get_object_dangling today request k db r :
  bookings db !! k = Some r -> listings db !! row_listing_id r = None ->
  get_object today request k db
  = Ok (inl (mkResponse HTTP_404_NOT_FOUND NotFound)).
Proof.
  intros Hr Hl. unfold get_object, qs_get, load_booking. rewrite Hr. simpl.
  rewrite Hl. reflexivity.
Qed.

Lemma cancel_booking_stored request k db r l :
  listings db !! row_listing_id r = Some l ->
  cancel_booking request (from_row k r l) db = cancel_outcome request k r l db.
Proof.
  intros Hl. unfold cancel_booking, cancel_outcome. simpl.
  destruct (decide (row_guest r ≠ user request)); [reflexivity|].
  destruct (decide (row_status r = cancelled)); [reflexivity|].
  rewrite (Booking_save_loaded db k r l (from_row k r l) cancelled Hl).
  - reflexivity.
  - apply load_booking_Some. eauto.
Qed.

Lemma confirm_booking_stored request k db r l :
  listings db !! row_listing_id r = Some l ->
  confirm_booking request (from_row k r l) db = confirm_outcome request k r l db.
Proof.
  intros Hl. unfold confirm_booking, confirm_outcome, listing_host. simpl.
  destruct (decide (host l ≠ user request)); [reflexivity|].
  destruct (decide (row_status r ≠ pending)); [reflexivity|].
  rewrite (Booking_save_loaded db k r l (from_row k r l) confirmed Hl).
  - reflexivity.
  - apply load_booking_Some. eauto.
Qed.

Lemma cancel_stored today request k db r l :
  bookings db !! k = Some r -> listings db !! row_listing_id r = Some l ->
  cancel today request k db
  = if get_queryset today request (from_row k r l)
    then cancel_outcome request k r l db
    else Ok (mkResponse HTTP_404_NOT_FOUND NotFound, db).
Proof.
  intros Hr Hl. unfold cancel. rewrite (get_object_stored _ _ _ _ _ _ Hr Hl).
  destruct (get_queryset today request (from_row k r l)); simpl;
    [by apply cancel_booking_stored | reflexivity].
Qed.

Lemma confirm_stored today request k db r l :
  bookings db !! k = Some r -> listings db !! row_listing_id r = Some l ->
  confirm today request k db
  = if get_queryset today request (from_row k r l)
    then confirm_outcome request k r l db
    else Ok (mkResponse HTTP_404_NOT_FOUND NotFound, db).
Proof.
  intros Hr Hl. unfold confirm. rewrite (get_object_stored _ _ _ _ _ _ Hr Hl).
  destruct (get_queryset today request (from_row k r l)); simpl;
    [by apply confirm_booking_stored | reflexivity].
Qed.

(** * The claims *)

(** ** Price derivation *)

(** C1. A booking saved with a listing and both dates, whose stay has a
    positive number of whole days, gets
    [total_price = listing.price_per_night * days]: the save writes the
    recomputed price whatever [total_price] the object carried (so the same
    save results from any supplied price), the object returned and the row
    stored both hold it, and the save succeeds as soon as the foreign key
    is set. *)
Theorem save_sets_total_price (b : Booking) (db : DB) (l : Listing)
  (ci co : date) :
  listing b = Some l -> check_in b = Some ci -> check_out b = Some co ->
  0 < co - ci ->
  let price := price_per_night l * (co - ci) in
  Booking_save b db = Model_save (set_total_price price b) db /\
  (forall supplied,
     Booking_save (set_total_price supplied b) db = Booking_save b db) /\
  (forall b' db', Booking_save b db = Ok (b', db') ->
     total_price b' = Some price /\
     exists k, pk b' = Some k /\
       row_total_price <$> bookings db' !! k = Some price) /\
  (is_Some (listing_id b) -> exists b' db', Booking_save b db = Ok (b', db')).
Proof.
  intros Hl Hci Hco Hn price.
  pose proof (Booking_save_nights b db l ci co Hl Hci Hco Hn) as Hsave.
  fold price in Hsave. split; [exact Hsave|]. split; [|split].
  - intros supplied.
    rewrite (Booking_save_nights (set_total_price supplied b) db l ci co)
      by assumption.
    rewrite Hsave. reflexivity.
  - intros b' db' Hok. rewrite Hsave in Hok.
    apply Model_save_Ok in Hok
      as (k & r & Hrow & Hpk & Htp & _ & _ & Hbk & _).
    split; [by rewrite Htp|].
    exists k. split; [exact Hpk|]. rewrite Hbk, lookup_insert_eq. simpl.
    unfold to_row in Hrow. simpl in Hrow.
    destruct (listing_id b), (check_in b), (check_out b); try discriminate.
    by injection Hrow as <-.
  - intros [lid Hlid]. rewrite Hsave. unfold Model_save, to_row. simpl.
    rewrite Hlid, Hci, Hco. destruct (pk b); eauto.
Qed.

Lemma save_sets_total_price_witness :
  Booking_save (set_total_price 1 (new_booking 2%nat ex_attrs)) ex_db
  = Booking_save (new_booking 2%nat ex_attrs) ex_db /\
  exists b' db', Booking_save (new_booking 2%nat ex_attrs) ex_db = Ok (b', db') /\
    total_price b' = Some 30000.
Proof.
  destruct (save_sets_total_price (new_booking 2%nat ex_attrs) ex_db ex_listing
              (ymd 2024 6 1) (ymd 2024 6 4))
    as (_ & Hany & Hres & Hok);
    [reflexivity | reflexivity | reflexivity | reflexivity |].
  split; [apply Hany|].
  destruct Hok as (b' & db' & Hsave); [by eexists|].
  exists b', db'. split; [exact Hsave|].
  apply (Hres b' db' Hsave).
Defined.

(** ** Creation through the API *)

Lemma get_serializer_class_create :
  get_serializer_class "create" = BookingCreateSerializer.
Proof. reflexivity. Qed.

Lemma to_internal_value_ok d db l :
  listings db !! data_listing d = Some l -> 0 <= data_guests_count d ->
  to_internal_value d db = inr (attrs_of d l).
Proof.
  intros Hl Hg. unfold to_internal_value. rewrite Hl.
  destruct (Z.ltb_spec (data_guests_count d) 0); [lia | reflexivity].
Qed.

(** The serializer of the create action accepts whatever passes the field
    checks: it has no [validate] of its own. *)
Lemma create_validation_accepts d db l :
  listings db !! data_listing d = Some l -> 0 <= data_guests_count d ->
  run_validation (get_serializer_class "create") d db = inr (attrs_of d l).
Proof.
  intros Hl Hg. rewrite get_serializer_class_create. unfold run_validation.
  by rewrite (to_internal_value_ok d db l Hl Hg).
Qed.

(** With dates in order, the create action stores the request as a pending
    booking, whatever the listing's capacity and availability. *)
Lemma create_persists request d db l :
  listings db !! data_listing d = Some l -> 0 <= data_guests_count d ->
  data_check_in d < data_check_out d ->
  let k := fresh (dom (bookings db)) in
  let r := mkBookingRow (data_listing d) (user request) (data_check_in d)
             (data_check_out d) (data_guests_count d)
             (price_per_night l * (data_check_out d - data_check_in d))
             pending (data_special_requests d) in
  bookings db !! k = None /\
  BookingViewSet_create request d db
  = Ok (mkResponse HTTP_201_CREATED (Data (from_row k r l)),
        set_bookings (<[k := r]> (bookings db)) db).
Proof.
  intros Hl Hg Hd k r. split.
  { apply not_elem_of_dom, is_fresh. }
  unfold BookingViewSet_create.
  rewrite (create_validation_accepts d db l Hl Hg).
  unfold perform_create, Serializer_save.
  rewrite (Booking_save_nights _ db l (data_check_in d) (data_check_out d));
    [| reflexivity | reflexivity | reflexivity | simpl; lia].
  reflexivity.
Qed.

(** The spec's example: 100.00 a night, three nights for two guests is
    accepted at 300.00 and starts pending. *)
Example create_example :
  BookingViewSet_create ex_request ex_data ex_db
  = Ok (mkResponse 201
          (Data (mkBooking (Some 0%nat) (Some 1%nat) (Some ex_listing) 2%nat
                           (Some 739038) (Some 739041) 2 (Some 30000)
                           pending "")),
        mkDB {[ 1%nat := ex_listing ]}
             {[ 0%nat := mkBookingRow 1%nat 2%nat 739038 739041 2 30000 pending "" ]}
             ∅).
Proof. vm_compute. reflexivity. Qed.

(** C2. Creation through the API does not check the order of the dates:
    the create action validates with [BookingCreateSerializer], which
    accepts a request whose [check_out] is not after its [check_in]; no
    validation error is raised.  The save then computes no price and the
    insert fails on the missing [total_price], an [IntegrityError] and not
    a 400.  [BookingSerializer], which the action does not use, rejects the
    same request. *)
Theorem create_skips_date_check (request : Request) (d : RequestData)
  (db : DB) (l : Listing) :
  listings db !! data_listing d = Some l -> 0 <= data_guests_count d ->
  data_check_out d <= data_check_in d ->
  run_validation (get_serializer_class "create") d db = inr (attrs_of d l) /\
  BookingViewSet_create request d db = Raise IntegrityError /\
  run_validation BookingSerializer d db
  = inl (NonFieldError "Check-out date must be after check-in date").
Proof.
  intros Hl Hg Hd. split; [by apply create_validation_accepts|]. split.
  - unfold BookingViewSet_create.
    rewrite (create_validation_accepts d db l Hl Hg).
    unfold perform_create, Serializer_save, Booking_save.
    rewrite (Booking_price_no_nights _ l (data_check_in d) (data_check_out d));
      [reflexivity | reflexivity | reflexivity | reflexivity | simpl; lia].
  - unfold run_validation. rewrite (to_internal_value_ok d db l Hl Hg).
    unfold Serializer_validate, BookingSerializer_validate. simpl.
    destruct (Z.leb_spec (data_check_out d) (data_check_in d));
      [reflexivity | lia].
Qed.

Lemma create_skips_date_check_witness :
  BookingViewSet_create ex_request
    (mkRequestData 1%nat (ymd 2024 6 1) (ymd 2024 6 1) 2 "") ex_db
  = Raise IntegrityError.
Proof.
  apply (create_skips_date_check ex_request
           (mkRequestData 1%nat (ymd 2024 6 1) (ymd 2024 6 1) 2 "")
           ex_db ex_listing);
    [reflexivity | vm_compute; discriminate | vm_compute; discriminate].
Defined.

(** C4. Creation through the API does not check the capacity: a request
    with more guests than [listing.max_guests], dates in order, is stored
    as a pending booking and answered 201.  [BookingSerializer], which the
    action does not use, rejects the same request. *)
Theorem create_skips_capacity_check (request : Request) (d : RequestData)
  (db : DB) (l : Listing) :
  listings db !! data_listing d = Some l -> 0 <= data_guests_count d ->
  data_check_in d < data_check_out d ->
  max_guests l < data_guests_count d ->
  (exists k b db',
     BookingViewSet_create request d db
       = Ok (mkResponse HTTP_201_CREATED (Data b), db') /\
     bookings db !! k = None /\
     row_guests_count <$> bookings db' !! k = Some (data_guests_count d) /\
     row_status <$> bookings db' !! k = Some pending) /\
  run_validation BookingSerializer d db
  = inl (NonFieldError ("Maximum guests allowed is " +:+ pretty (max_guests l))).
Proof.
  intros Hl Hg Hd Hcap. split.
  - destruct (create_persists request d db l Hl Hg Hd) as [Hfresh Hc].
    eexists _, _, _. split; [exact Hc|]. split; [exact Hfresh|].
    simpl. rewrite lookup_insert_eq. split; reflexivity.
  - unfold run_validation. rewrite (to_internal_value_ok d db l Hl Hg).
    unfold Serializer_validate, BookingSerializer_validate. simpl.
    destruct (Z.leb_spec (data_check_out d) (data_check_in d)); [lia|].
    destruct (Z.ltb_spec (max_guests l) (data_guests_count d));
      [reflexivity | lia].
Qed.

Lemma create_skips_capacity_check_witness :
  exists k b db',
    BookingViewSet_create ex_request
      (mkRequestData 1%nat (ymd 2024 6 1) (ymd 2024 6 4) 5 "") ex_db
      = Ok (mkResponse HTTP_201_CREATED (Data b), db') /\
    bookings ex_db !! k = None /\
    row_guests_count <$> bookings db' !! k = Some 5 /\
    row_status <$> bookings db' !! k = Some pending.
Proof.
  apply (create_skips_capacity_check ex_request
           (mkRequestData 1%nat (ymd 2024 6 1) (ymd 2024 6 4) 5 "")
           ex_db ex_listing);
    [reflexivity | vm_compute; discriminate | reflexivity | reflexivity].
Defined.

(** C5. Creation through the API does not check the availability: a
    request against a listing with [is_available = False], dates in order,
    is stored as a pending booking and answered 201.  [BookingSerializer],
    which the action does not use, rejects the same request. *)
Theorem create_skips_availability_check (request : Request) (d : RequestData)
  (db : DB) (l : Listing) :
  listings db !! data_listing d = Some l -> 0 <= data_guests_count d ->
  data_check_in d < data_check_out d ->
  is_available l = false ->
  (exists k b db',
     BookingViewSet_create request d db
       = Ok (mkResponse HTTP_201_CREATED (Data b), db') /\
     bookings db !! k = None /\
     row_listing_id <$> bookings db' !! k = Some (data_listing d) /\
     row_status <$> bookings db' !! k = Some pending) /\
  exists msg, run_validation BookingSerializer d db = inl (NonFieldError msg).
Proof.
  intros Hl Hg Hd Hav. split.
  - destruct (create_persists request d db l Hl Hg Hd) as [Hfresh Hc].
    eexists _, _, _. split; [exact Hc|]. split; [exact Hfresh|].
    simpl. rewrite lookup_insert_eq. split; reflexivity.
  - unfold run_validation. rewrite (to_internal_value_ok d db l Hl Hg).
    unfold Serializer_validate, BookingSerializer_validate. simpl.
    destruct (Z.leb_spec (data_check_out d) (data_check_in d)); [lia|].
    destruct (max_guests l <? data_guests_count d); [eauto|].
    rewrite Hav. simpl. eauto.
Qed.

Lemma create_skips_availability_check_witness :
  exists k b db',
    BookingViewSet_create ex_request ex_data
      (mkDB {[ 1%nat := mkListing 10000 4 false 1%nat ]} ∅ ∅)
      = Ok (mkResponse HTTP_201_CREATED (Data b), db') /\
    bookings (mkDB {[ 1%nat := mkListing 10000 4 false 1%nat ]} ∅ ∅) !! k
      = None /\
    row_listing_id <$> bookings db' !! k = Some 1%nat /\
    row_status <$> bookings db' !! k = Some pending.
Proof.
  apply (create_skips_availability_check ex_request ex_data
           (mkDB {[ 1%nat := mkListing 10000 4 false 1%nat ]} ∅ ∅)
           (mkListing 10000 4 false 1%nat));
    [reflexivity | vm_compute; discriminate | reflexivity | reflexivity].
Defined.

(** ** The status state machine *)

(** Closes a goal [exists resp, Ok (r, db) = Ok (resp, db) /\ code] once
    the action is reduced to its answer. *)
Ltac answered := eexists; split; [reflexivity | discriminate].

(** A response that is not a 200 comes with the database as it was. *)
Lemma cancel_rejections today request k db r :
  bookings db !! k = Some r ->
  (forall l, listings db !! row_listing_id r = Some l ->
     row_guest r ≠ user request \/ row_status r = cancelled) ->
  exists resp, cancel today request k db = Ok (resp, db) /\
               status_code resp ≠ HTTP_200_OK.
Proof.
  intros Hr Hrej. destruct (listings db !! row_listing_id r) as [l|] eqn:Hl.
  - rewrite (cancel_stored today request k db r l Hr Hl).
    destruct (get_queryset today request (from_row k r l)).
    + destruct (Hrej l eq_refl); unfold cancel_outcome;
        repeat case_decide; try congruence; answered.
    + answered.
  - unfold cancel. rewrite (get_object_dangling today request k db r Hr Hl).
    answered.
Qed.

Lemma confirm_rejections today request k db r :
  bookings db !! k = Some r ->
  (forall l, listings db !! row_listing_id r = Some l ->
     host l ≠ user request \/ row_status r ≠ pending) ->
  exists resp, confirm today request k db = Ok (resp, db) /\
               status_code resp ≠ HTTP_200_OK.
Proof.
  intros Hr Hrej. destruct (listings db !! row_listing_id r) as [l|] eqn:Hl.
  - rewrite (confirm_stored today request k db r l Hr Hl).
    destruct (get_queryset today request (from_row k r l)).
    + destruct (Hrej l eq_refl); unfold confirm_outcome;
        repeat case_decide; try congruence; answered.
    + answered.
  - unfold confirm. rewrite (get_object_dangling today request k db r Hr Hl).
    answered.
Qed.

(** What a 200 from either action means for the stored booking. *)
Lemma cancel_success today request k db r l resp db' :
  bookings db !! k = Some r -> listings db !! row_listing_id r = Some l ->
  cancel today request k db = Ok (resp, db') ->
  status_code resp = HTTP_200_OK ->
  row_guest r = user request /\ row_status r ≠ cancelled /\
  resp = mkResponse HTTP_200_OK
           (Data (set_total_price (saved_price l r)
                    (set_status cancelled (from_row k r l)))) /\
  db' = set_bookings (<[k := saved_row l cancelled r]> (bookings db)) db.
Proof.
  intros Hr Hl Hc Hcode. rewrite (cancel_stored today request k db r l Hr Hl) in Hc.
  destruct (get_queryset today request (from_row k r l)).
  - unfold cancel_outcome in Hc. repeat case_decide;
      injection Hc as <- <-; try discriminate.
    repeat split; auto; try by apply dec_stable.
  - injection Hc as <- <-. discriminate.
Qed.

Lemma confirm_success today request k db r l resp db' :
  bookings db !! k = Some r -> listings db !! row_listing_id r = Some l ->
  confirm today request k db = Ok (resp, db') ->
  status_code resp = HTTP_200_OK ->
  host l = user request /\ row_status r = pending /\
  resp = mkResponse HTTP_200_OK
           (Data (set_total_price (saved_price l r)
                    (set_status confirmed (from_row k r l)))) /\
  db' = set_bookings (<[k := saved_row l confirmed r]> (bookings db)) db.
Proof.
  intros Hr Hl Hc Hcode. rewrite (confirm_stored today request k db r l Hr Hl) in Hc.
  destruct (get_queryset today request (from_row k r l)).
  - unfold confirm_outcome in Hc. repeat case_decide;
      injection Hc as <- <-; try discriminate.
    repeat split; auto; try by apply dec_stable.
  - injection Hc as <- <-. discriminate.
Qed.

(** ** The save behind the actions *)

(** C10. A 200 from [cancel] or [confirm] on a stored booking whose stay
    has a positive number of nights leaves, in the response and in the
    stored row, [total_price] equal to the price per night the listing has
    in the database at that moment times the nights, whatever price the
    row held before. *)
Theorem action_recomputes_total_price (today : date) (request : Request)
  (k : nat) (db : DB) (r : BookingRow) (l : Listing) (resp : Response)
  (db' : DB) :
  bookings db !! k = Some r -> listings db !! row_listing_id r = Some l ->
  0 < row_check_out r - row_check_in r ->
  cancel today request k db = Ok (resp, db')
  \/ confirm today request k db = Ok (resp, db') ->
  status_code resp = HTTP_200_OK ->
  let price := price_per_night l * (row_check_out r - row_check_in r) in
  row_total_price <$> bookings db' !! k = Some price /\
  exists b, data resp = Data b /\ total_price b = Some price.
Proof.
  intros Hr Hl Hn Hact Hcode price.
  assert (saved_price l r = price) as Hp.
  { unfold saved_price.
    destruct (Z.ltb_spec 0 (row_check_out r - row_check_in r));
      [reflexivity | lia]. }
  destruct Hact as [Hc|Hc].
  - destruct (cancel_success today request k db r l resp db' Hr Hl Hc Hcode)
      as (_ & _ & -> & ->).
    simpl. rewrite lookup_insert_eq. simpl. rewrite Hp. eauto.
  - destruct (confirm_success today request k db r l resp db' Hr Hl Hc Hcode)
      as (_ & _ & -> & ->).
    simpl. rewrite lookup_insert_eq. simpl. rewrite Hp. eauto.
Qed.

(** The night went from 100.00 to 150.00 after booking 7 was stored at
    300.00; once the host confirms, booking 7 costs 450.00. *)
Lemma action_recomputes_total_price_witness :
  row_total_price <$> bookings (ex_db_booked 15000 pending) !! 7%nat
    = Some 30000 /\
  exists resp db',
    confirm (ymd 2024 5 1) ex_host_request 7 (ex_db_booked 15000 pending)
      = Ok (resp, db') /\
    status_code resp = HTTP_200_OK /\
    row_total_price <$> bookings db' !! 7%nat = Some 45000.
Proof.
  split; [reflexivity|].
  pose (resp := mkResponse 200
                  (Data (mkBooking (Some 7%nat) (Some 1%nat)
                           (Some (mkListing 15000 4 true 1%nat)) 2%nat
                           (Some 739038) (Some 739041) 2 (Some 45000)
                           confirmed ""))).
  pose (db' := mkDB {[ 1%nat := mkListing 15000 4 true 1%nat ]}
                    {[ 7%nat := mkBookingRow 1%nat 2%nat 739038 739041 2
                                             45000 confirmed "" ]} ∅).
  assert (confirm (ymd 2024 5 1) ex_host_request 7
            (ex_db_booked 15000 pending) = Ok (resp, db')) as Hc.
  { vm_compute. reflexivity. }
  exists resp, db'. split; [exact Hc|]. split; [reflexivity|].
  destruct (action_recomputes_total_price (ymd 2024 5 1) ex_host_request 7
              (ex_db_booked 15000 pending) (ex_row pending)
              (mkListing 15000 4 true 1%nat) resp db')
    as [Hrow _];
    [reflexivity | reflexivity | reflexivity | right; exact Hc | reflexivity |].
  exact Hrow.
Defined.

(** ** The booking collection *)

Lemma guest_or_host_visible u b :
  guest_or_host u b = true <-> visible_to u b.
Proof.
  unfold guest_or_host, visible_to.
  rewrite orb_true_iff, !bool_decide_eq_true. reflexivity.
Qed.

Lemma truthy_Some s : truthy (Some s) = true <-> s ≠ "".
Proof. destruct s; simpl; split; congruence. Qed.

Lemma upcoming_true up :
  lower up = "true" ->
  truthy (Some up) && bool_decide (lower up = "true") = true.
Proof.
  intros Hl. rewrite (bool_decide_eq_true_2 _ Hl).
  destruct up; [discriminate Hl | reflexivity].
Qed.

Lemma get_queryset_spec today request b :
  get_queryset today request b = true <->
  visible_to (user request) b /\ matches_status request b /\
  matches_upcoming today request b.
Proof.
  unfold get_queryset, matches_status, matches_upcoming.
  rewrite <- guest_or_host_visible.
  destruct (param_status request) as [st|], (param_upcoming request) as [up|].
  - destruct (truthy (Some st)) eqn:Hst;
      destruct (truthy (Some up) && bool_decide (lower up = "true")) eqn:Hup;
      unfold qs_filter; rewrite ?andb_true_iff, ?bool_decide_eq_true.
    all: try apply andb_true_iff in Hup as [_ Hup%bool_decide_eq_true].
    all: try apply truthy_Some in Hst.
    + split.
      * intros [[Hv Hs] Hd]. repeat split; auto.
        -- by intros s [= <-] _.
        -- intros u [= <-] _. destruct (check_in b) as [d|]; [|discriminate].
           exists d. split; [reflexivity | lia].
      * intros (Hv & Hs & Hd). repeat split; auto.
        destruct (Hd up eq_refl Hup) as (d & -> & Hle). lia.
    + split.
      * intros [Hv Hs]. repeat split; auto.
        -- by intros s [= <-] _.
        -- intros u [= <-] Hl. exfalso.
           by rewrite (upcoming_true _ Hl) in Hup.
      * intros (Hv & Hs & _). auto.
    + assert (st = "") as ->.
      { destruct st; [reflexivity | discriminate Hst]. }
      split.
      * intros [Hv Hd]. repeat split; auto.
        -- intros s [= <-] Hne. congruence.
        -- intros u [= <-] _. destruct (check_in b) as [d|]; [|discriminate].
           exists d. split; [reflexivity | lia].
      * intros (Hv & _ & Hd). split; auto.
        destruct (Hd up eq_refl Hup) as (d & -> & Hle). lia.
    + assert (st = "") as ->.
      { destruct st; [reflexivity | discriminate Hst]. }
      split.
      * intros Hv. repeat split; auto.
        -- intros s [= <-] Hne. congruence.
        -- intros u [= <-] Hl. exfalso.
           by rewrite (upcoming_true _ Hl) in Hup.
      * intros (Hv & _ & _). auto.
  - destruct (truthy (Some st)) eqn:Hst;
      unfold qs_filter; rewrite ?andb_true_iff, ?bool_decide_eq_true.
    + apply truthy_Some in Hst. split.
      * intros [Hv Hs]. repeat split; auto.
        -- by intros s [= <-] _.
        -- intros u [=].
      * intros (Hv & Hs & _). auto.
    + assert (st = "") as ->.
      { destruct st; [reflexivity | discriminate Hst]. }
      split.
      * intros Hv. repeat split; auto.
        -- intros s [= <-] Hne. congruence.
        -- intros u [=].
      * intros (Hv & _ & _). auto.
  - destruct (truthy (Some up) && bool_decide (lower up = "true")) eqn:Hup;
      unfold qs_filter; rewrite ?andb_true_iff.
    + apply andb_true_iff in Hup as [_ Hup%bool_decide_eq_true]. split.
      * intros [Hv Hd]. repeat split; auto.
        -- intros s [=].
        -- intros u [= <-] _. destruct (check_in b) as [d|]; [|discriminate].
           exists d. split; [reflexivity | lia].
      * intros (Hv & _ & Hd). split; auto.
        destruct (Hd up eq_refl Hup) as (d & -> & Hle). lia.
    + split.
      * intros Hv. repeat split; auto.
        -- intros s [=].
        -- intros u [= <-] Hl. exfalso.
           by rewrite (upcoming_true _ Hl) in Hup.
      * intros (Hv & _ & _). auto.
  - split.
    + intros Hv. repeat split; auto; intros ? [=].
    + intros (Hv & _ & _). auto.
Qed.

Lemma elem_of_BookingViewSet_list today request db b :
  b ∈ BookingViewSet_list today request db <->
  b ∈ Booking_objects db /\ get_queryset today request b = true.
Proof.
  unfold BookingViewSet_list, qs_list. rewrite list_elem_of_filter.
  rewrite Is_true_true. tauto.
Qed.



(** Without parameters: user 2 sees their own booking 7, the host (user 1)
    sees it too, and user 3 sees nothing. *)
Example booking_list_example :
  BookingViewSet_list (ymd 2024 5 1) ex_request (ex_db_booked 10000 pending)
    = [from_row 7 (ex_row pending) ex_listing] /\
  BookingViewSet_list (ymd 2024 5 1) ex_host_request
                      (ex_db_booked 10000 pending)
    = [from_row 7 (ex_row pending) ex_listing] /\
  BookingViewSet_list (ymd 2024 5 1) (mkRequest 3%nat None None)
                      (ex_db_booked 10000 pending) = [].
Proof. vm_compute. repeat split. Qed.

(** ** The actions through the queryset of the view *)

(** [cancel] and [confirm] fetch the booking with [self.get_object()], which
    looks the key up in [get_queryset()]: the [status] and [upcoming]
    parameters of the request narrow that lookup as they narrow the
    collection. *)
Lemma get_queryset_stored today request k r l :
  row_guest r = user request \/ host l = user request ->
  matches_status request (from_row k r l) ->
  matches_upcoming today request (from_row k r l) ->
  get_queryset today request (from_row k r l) = true.
Proof.
  intros Hv Hs Hu. apply get_queryset_spec. split; [|by split].
  destruct Hv as [Hg | Hh]; [by left | right]. simpl. by rewrite Hh.
Qed.

Lemma get_queryset_unmatched today request b :
  ~ (matches_status request b /\ matches_upcoming today request b) ->
  get_queryset today request b = false.
Proof.
  intros Hn. destruct (get_queryset today request b) eqn:Hq; [|reflexivity].
  apply get_queryset_spec in Hq as (_ & Hs & Hu). by destruct Hn.
Qed.

Lemma matches_plain today request b :
  param_status request = None -> param_upcoming request = None ->
  matches_status request b /\ matches_upcoming today request b.
Proof.
  intros Hs Hu. unfold matches_status, matches_upcoming. rewrite Hs, Hu.
  split; intros ? [=].
Qed.

(** C7, as stated, fails: the host of the listing confirms a pending
    booking with [?status=cancelled] on the request; the queryset of the
    view leaves the booking out, and the answer is a 404. *)
Lemma confirm_by_host_is_not_found :
  ~ (forall today request k db r l,
       bookings db !! k = Some r -> listings db !! row_listing_id r = Some l ->
       (row_status r ≠ pending ->
          exists resp, confirm today request k db = Ok (resp, db) /\
                       status_code resp ≠ HTTP_200_OK) /\
       (host l ≠ user request ->
          exists resp, confirm today request k db = Ok (resp, db) /\
                       status_code resp ≠ HTTP_200_OK) /\
       ((exists resp db', confirm today request k db = Ok (resp, db') /\
           status_code resp = HTTP_200_OK /\
           row_status <$> bookings db' !! k = Some confirmed)
        <-> host l = user request /\ row_status r = pending)).
Proof.
  intros Hclaim.
  destruct (Hclaim (ymd 2024 5 1) (mkRequest 1%nat (Some "cancelled") None)
                   7%nat (ex_db_booked 10000 pending) (ex_row pending)
                   (mkListing 10000 4 true 1%nat))
    as (_ & _ & [_ Hok]); [reflexivity | reflexivity |].
  destruct Hok as (resp & db' & Hc & Hcode & _); [split; reflexivity|].
  vm_compute in Hc. injection Hc as Hresp _. subst resp.
  discriminate Hcode.
Qed.

(** C7, amended.  [confirm] on a stored booking answers without a 200 and
    leaves the database as it was when the booking is not pending, and when
    the actor is not the host of its listing, whatever the status; it
    answers 404, the database as it was, when the booking does not match
    the [status] and [upcoming] parameters of the request.  A 200 comes
    only from the host, on a pending booking that matches those parameters,
    as every booking does when the request has none.  Such a call is
    answered 200 with the booking confirmed, and that status is stored,
    when the stored total price and the one the save computes are amounts
    that the ten digits of the column hold. *)
Theorem confirm_host_on_pending_only (today : date) (request : Request)
  (k : nat) (db : DB) (r : BookingRow) (l : Listing) :
  bookings db !! k = Some r -> listings db !! row_listing_id r = Some l ->
  (row_status r ≠ pending ->
     exists resp, confirm today request k db = Ok (resp, db) /\
                  status_code resp ≠ HTTP_200_OK) /\
  (host l ≠ user request ->
     exists resp, confirm today request k db = Ok (resp, db) /\
                  status_code resp ≠ HTTP_200_OK) /\
  (~ (matches_status request (from_row k r l) /\
      matches_upcoming today request (from_row k r l)) ->
     confirm today request k db
       = Ok (mkResponse HTTP_404_NOT_FOUND NotFound, db)) /\
  (forall resp db', confirm today request k db = Ok (resp, db') ->
     status_code resp = HTTP_200_OK ->
     host l = user request /\ row_status r = pending /\
     matches_status request (from_row k r l) /\
     matches_upcoming today request (from_row k r l)) /\
  (host l = user request -> row_status r = pending ->
   (matches_status request (from_row k r l) /\
    matches_upcoming today request (from_row k r l))
   \/ (param_status request = None /\ param_upcoming request = None) ->
   fits_max_digits (row_total_price r) = true ->
   fits_max_digits (saved_price l r) = true ->
     exists b db',
       confirm today request k db
         = Ok (mkResponse HTTP_200_OK (Data b), db') /\
       status b = confirmed /\
       row_status <$> bookings db' !! k = Some confirmed).
Proof.
  intros Hr Hl. split; [|split; [|split; [|split]]].
  - intros Hst. apply (confirm_rejections today request k db r Hr).
    intros l' _. by right.
  - intros Hh. apply (confirm_rejections today request k db r Hr).
    intros l' Hl'. left. congruence.
  - intros Hn. rewrite (confirm_stored today request k db r l Hr Hl).
    by rewrite (get_queryset_unmatched today request _ Hn).
  - intros resp db' Hc Hcode.
    rewrite (confirm_stored today request k db r l Hr Hl) in Hc.
    destruct (get_queryset today request (from_row k r l)) eqn:Hq.
    + apply get_queryset_spec in Hq as (_ & Hs & Hu).
      unfold confirm_outcome in Hc. repeat case_decide;
        injection Hc as <- <-; try discriminate.
      repeat split; auto; by apply dec_stable.
    + injection Hc as <- <-. discriminate.
  - intros Hh Hst Hm _ _.
    assert (matches_status request (from_row k r l) /\
            matches_upcoming today request (from_row k r l)) as [Hs Hu].
    { destruct Hm as [Hm | [Hs Hu]]; [exact Hm | by apply matches_plain]. }
    rewrite (confirm_stored today request k db r l Hr Hl).
    rewrite (get_queryset_stored today request k r l (or_intror Hh) Hs Hu).
    unfold confirm_outcome. repeat case_decide; try congruence.
    eexists _, _. split; [reflexivity|]. split; [reflexivity|].
    simpl. by rewrite lookup_insert_eq.
Qed.

(** The host confirms pending booking 7 with [?status=pending&upcoming=True]
    a month before the stay. *)
Lemma confirm_host_on_pending_only_witness :
  exists b db',
    confirm (ymd 2024 5 1) (mkRequest 1%nat (Some "pending") (Some "True")) 7
            (ex_db_booked 10000 pending)
      = Ok (mkResponse HTTP_200_OK (Data b), db') /\
    status b = confirmed /\
    row_status <$> bookings db' !! 7%nat = Some confirmed.
Proof.
  destruct (confirm_host_on_pending_only (ymd 2024 5 1)
              (mkRequest 1%nat (Some "pending") (Some "True")) 7
              (ex_db_booked 10000 pending) (ex_row pending)
              (mkListing 10000 4 true 1%nat))
    as (_ & _ & _ & _ & Hok); [reflexivity | reflexivity |].
  apply Hok; [reflexivity | reflexivity | | reflexivity | reflexivity].
  left. split.
  - intros s [= <-] _. reflexivity.
  - intros u _ _. eexists. split; [reflexivity|]. vm_compute. discriminate.
Defined.

(** C8, as stated, fails: the guest cancels their pending booking with
    [?status=confirmed] on the request; the queryset of the view leaves the
    booking out, the answer is a 404 and the booking stays pending. *)
Lemma cancel_by_guest_is_not_found :
  ~ (forall today request k db r l,
       bookings db !! k = Some r -> listings db !! row_listing_id r = Some l ->
       (row_status r = cancelled ->
          exists resp, cancel today request k db = Ok (resp, db) /\
                       status_code resp ≠ HTTP_200_OK) /\
       (row_guest r ≠ user request ->
          exists resp, cancel today request k db = Ok (resp, db) /\
                       status_code resp ≠ HTTP_200_OK) /\
       (row_guest r = user request -> row_status r ≠ cancelled ->
          exists resp db', cancel today request k db = Ok (resp, db') /\
            row_status <$> bookings db' !! k = Some cancelled)).
Proof.
  intros Hclaim.
  destruct (Hclaim (ymd 2024 5 1) (mkRequest 2%nat (Some "confirmed") None)
                   7%nat (ex_db_booked 10000 pending) (ex_row pending)
                   (mkListing 10000 4 true 1%nat))
    as (_ & _ & Hok); [reflexivity | reflexivity |].
  destruct Hok as (resp & db' & Hc & Hrow); [reflexivity | discriminate |].
  vm_compute in Hc. injection Hc as _ Hdb. subst db'.
  vm_compute in Hrow. discriminate Hrow.
Qed.

(** C8, amended.  [cancel] on a stored booking answers without a 200 and
    leaves the database as it was when the booking is already cancelled,
    and when the actor is not its guest; it answers 404, the database as it
    was, when the booking does not match the [status] and [upcoming]
    parameters of the request.  A 200 comes only from the guest, on a
    booking that is not cancelled and matches those parameters, as every
    booking does when the request has none.  Such a call is answered 200
    with the booking cancelled, and that status is stored, when the stored
    total price and the one the save computes are amounts that the ten
    digits of the column hold. *)
Theorem cancel_guest_on_uncancelled_only (today : date) (request : Request)
  (k : nat) (db : DB) (r : BookingRow) (l : Listing) :
  bookings db !! k = Some r -> listings db !! row_listing_id r = Some l ->
  (row_status r = cancelled ->
     exists resp, cancel today request k db = Ok (resp, db) /\
                  status_code resp ≠ HTTP_200_OK) /\
  (row_guest r ≠ user request ->
     exists resp, cancel today request k db = Ok (resp, db) /\
                  status_code resp ≠ HTTP_200_OK) /\
  (~ (matches_status request (from_row k r l) /\
      matches_upcoming today request (from_row k r l)) ->
     cancel today request k db
       = Ok (mkResponse HTTP_404_NOT_FOUND NotFound, db)) /\
  (forall resp db', cancel today request k db = Ok (resp, db') ->
     status_code resp = HTTP_200_OK ->
     row_guest r = user request /\ row_status r ≠ cancelled /\
     matches_status request (from_row k r l) /\
     matches_upcoming today request (from_row k r l)) /\
  (row_guest r = user request -> row_status r ≠ cancelled ->
   (matches_status request (from_row k r l) /\
    matches_upcoming today request (from_row k r l))
   \/ (param_status request = None /\ param_upcoming request = None) ->
   fits_max_digits (row_total_price r) = true ->
   fits_max_digits (saved_price l r) = true ->
     exists b db',
       cancel today request k db
         = Ok (mkResponse HTTP_200_OK (Data b), db') /\
       status b = cancelled /\
       row_status <$> bookings db' !! k = Some cancelled).
Proof.
  intros Hr Hl. split; [|split; [|split; [|split]]].
  - intros Hst. apply (cancel_rejections today request k db r Hr).
    intros l' _. by right.
  - intros Hg. apply (cancel_rejections today request k db r Hr).
    intros l' _. by left.
  - intros Hn. rewrite (cancel_stored today request k db r l Hr Hl).
    by rewrite (get_queryset_unmatched today request _ Hn).
  - intros resp db' Hc Hcode.
    rewrite (cancel_stored today request k db r l Hr Hl) in Hc.
    destruct (get_queryset today request (from_row k r l)) eqn:Hq.
    + apply get_queryset_spec in Hq as (_ & Hs & Hu).
      unfold cancel_outcome in Hc. repeat case_decide;
        injection Hc as <- <-; try discriminate.
      repeat split; auto; by apply dec_stable.
    + injection Hc as <- <-. discriminate.
  - intros Hg Hst Hm _ _.
    assert (matches_status request (from_row k r l) /\
            matches_upcoming today request (from_row k r l)) as [Hs Hu].
    { destruct Hm as [Hm | [Hs Hu]]; [exact Hm | by apply matches_plain]. }
    rewrite (cancel_stored today request k db r l Hr Hl).
    rewrite (get_queryset_stored today request k r l (or_introl Hg) Hs Hu).
    unfold cancel_outcome. repeat case_decide; try congruence.
    eexists _, _. split; [reflexivity|]. split; [reflexivity|].
    simpl. by rewrite lookup_insert_eq.
Qed.

(** The guest cancels confirmed booking 7 with [?status=confirmed]. *)
Lemma cancel_guest_on_uncancelled_only_witness :
  exists b db',
    cancel (ymd 2024 5 1) (mkRequest 2%nat (Some "confirmed") None) 7
           (ex_db_booked 10000 confirmed)
      = Ok (mkResponse HTTP_200_OK (Data b), db') /\
    status b = cancelled /\
    row_status <$> bookings db' !! 7%nat = Some cancelled.
Proof.
  destruct (cancel_guest_on_uncancelled_only (ymd 2024 5 1)
              (mkRequest 2%nat (Some "confirmed") None) 7
              (ex_db_booked 10000 confirmed) (ex_row confirmed)
              (mkListing 10000 4 true 1%nat))
    as (_ & _ & _ & _ & Hok); [reflexivity | reflexivity |].
  apply Hok; [reflexivity | discriminate | | reflexivity | reflexivity].
  left. split.
  - intros s [= <-] _. reflexivity.
  - intros u [=].
Defined.




(** ** Division of integers into a binary64 *)

Lemma digits2_pos_bounds p :
  2 ^ (Zpos (digits2_pos p) - 1) <= Zpos p < 2 ^ Zpos (digits2_pos p).
Proof.
  induction p as [p IH|p IH|]; simpl digits2_pos.
  - rewrite Pos2Z.inj_succ.
    replace (Z.succ (Z.pos (digits2_pos p)) - 1)
      with (Z.succ (Z.pos (digits2_pos p) - 1)) by lia.
    rewrite !Z.pow_succ_r by lia. lia.
  - rewrite Pos2Z.inj_succ.
    replace (Z.succ (Z.pos (digits2_pos p)) - 1)
      with (Z.succ (Z.pos (digits2_pos p) - 1)) by lia.
    rewrite !Z.pow_succ_r by lia. lia.
  - simpl. lia.
Qed.

Lemma Zdigits2_unique m k :
  2 ^ (k - 1) <= m < 2 ^ k -> 0 < k -> Zdigits2 m = k.
Proof.
  intros [Hlo Hhi] Hk.
  assert (0 < m) as Hm by (pose proof (Z.pow_pos_nonneg 2 (k - 1)); lia).
  destruct m as [|p|p]; try lia. simpl.
  pose proof (digits2_pos_bounds p) as [Hl Hh].
  set (d := Zpos (digits2_pos p)) in *.
  destruct (Z.lt_trichotomy d k) as [Hlt|[Heq|Hgt]]; [|exact Heq|].
  - assert (2 ^ d <= 2 ^ (k - 1)) by (apply Z.pow_le_mono_r; lia). lia.
  - assert (2 ^ k <= 2 ^ (d - 1)) by (apply Z.pow_le_mono_r; lia). lia.
Qed.

(** The location computed from the remainder of a division. *)
Lemma new_location_ok b r q :
  0 < b -> 0 <= r < b -> loc_ok q (q * b + r) b (new_location b r).
Proof.
  intros Hb Hr. unfold new_location, new_location_even, new_location_odd.
  destruct (Z.even b) eqn:Hev.
  - destruct (Z.eqb_spec r 0) as [->|Hne]; simpl; [lia|].
    destruct (Z.compare_spec (2 * r) b); simpl; lia.
  - destruct (Z.eqb_spec r 0) as [->|Hne]; simpl; [lia|].
    assert (Z.odd b = true) as Hodd
      by (rewrite <- Z.negb_even, Hev; reflexivity).
    apply Z.odd_spec in Hodd as [c Hc].
    destruct (Z.compare_spec (2 * r + 1) b); simpl; lia.
Qed.

(** Dropping the last bit of the quotient keeps the location right, for a
    denominator twice as large. *)
Lemma shr_1_ok m N D l :
  0 <= m -> 0 < D -> loc_ok m N D l ->
  exists m', shr_m (shr_1 (shr_record_of_loc m l)) = m' /\
    (m = 2 * m' \/ m = 2 * m' + 1) /\
    loc_ok m' N (2 * D) (loc_of_shr_record (shr_1 (shr_record_of_loc m l))).
Proof.
  intros Hm HD Hl.
  destruct m as [|[p|p|]|p]; try lia; destruct l as [|[]]; simpl in *;
    eexists; (split; [reflexivity|]); split; try lia.
Qed.

Lemma round_nearest_even_ok m N D l :
  0 < D -> loc_ok m N D l ->
  (round_nearest_even m l = m \/ round_nearest_even m l = m + 1) /\
  Z.abs (2 * (round_nearest_even m l * D - N)) <= D.
Proof.
  intros HD Hl. destruct l as [|[]]; simpl in *.
  - split; [auto|]. lia.
  - destruct (Z.even m); split; auto; lia.
  - split; [auto|]. lia.
  - split; [auto|]. lia.
Qed.

Lemma shr_fexp_53 m e l :
  Zdigits2 m = 53 -> -1074 <= e ->
  shr_fexp 53 1024 m e l = (shr_record_of_loc m l, e).
Proof.
  intros Hd He. unfold shr_fexp, fexp, emin. rewrite Hd.
  replace (Z.max (53 + e - 53) (3 - 1024 - 53) - e) with 0 by lia.
  reflexivity.
Qed.

Lemma shr_fexp_54 m e l :
  Zdigits2 m = 54 -> -1075 <= e ->
  shr_fexp 53 1024 m e l = (shr_1 (shr_record_of_loc m l), e + 1).
Proof.
  intros Hd He. unfold shr_fexp, fexp, emin. rewrite Hd.
  replace (Z.max (54 + e - 53) (3 - 1024 - 53) - e) with 1 by lia.
  reflexivity.
Qed.

(** Rounding a quotient of 53 or 54 bits: the result has 53 bits, its
    exponent went up by [k <= 2], and it is within half a unit of
    [N / (2^k * D)]. *)
Lemma binary_round_aux_ok q N D E l :
  2 ^ 52 <= q < 2 ^ 54 -> 0 < D -> -1074 <= E <= 900 -> loc_ok q N D l ->
  exists m e k,
    binary_round_aux 53 1024 false q E l = S754_finite false m e /\
    2 ^ 52 <= Zpos m < 2 ^ 53 /\ e = E + k /\ 0 <= k <= 2 /\
    Z.abs (2 * (Zpos m * (2 ^ k * D) - N)) <= 2 ^ k * D.
Proof.
  intros Hq HD HE Hl. unfold binary_round_aux.
  assert (exists m1 k1 mrs1,
    shr_fexp 53 1024 q E l = (mrs1, E + k1) /\ shr_m mrs1 = m1 /\
    2 ^ 52 <= m1 < 2 ^ 53 /\ 0 <= k1 <= 1 /\
    loc_ok m1 N (2 ^ k1 * D) (loc_of_shr_record mrs1)) as Hfirst.
  { destruct (Z_lt_le_dec q (2 ^ 53)) as [Hlt|Hge].
    - rewrite (shr_fexp_53 q E l) by (try apply Zdigits2_unique; lia).
      exists q, 0, (shr_record_of_loc q l).
      destruct l as [|[]]; simpl; rewrite ?Z.add_0_r; repeat split;
        try lia; simpl in Hl; try lia.
    - rewrite (shr_fexp_54 q E l) by (try apply Zdigits2_unique; lia).
      destruct (shr_1_ok q N D l) as (m' & Hm' & Hpar & Hl');
        [lia | lia | exact Hl |].
      exists m', 1, (shr_1 (shr_record_of_loc q l)).
      repeat split; try lia; try exact Hm'.
      replace (2 ^ 1 * D) with (2 * D) by lia. exact Hl'. }
  destruct Hfirst as (m1 & k1 & mrs1 & -> & Hm1 & Hb1 & Hk1 & Hl1).
  rewrite Hm1.
  destruct (round_nearest_even_ok m1 N (2 ^ k1 * D) (loc_of_shr_record mrs1))
    as [Hr Hbound]; [nia | exact Hl1 |].
  set (mr := round_nearest_even m1 (loc_of_shr_record mrs1)) in *.
  destruct (Z_lt_le_dec mr (2 ^ 53)) as [Hlt|Hge].
  - rewrite (shr_fexp_53 mr (E + k1) loc_Exact)
      by (try apply Zdigits2_unique; lia).
    simpl shr_m. destruct mr as [|p|p] eqn:Hmr; try lia.
    destruct (Z.leb_spec (E + k1) (1024 - 53)); [|lia].
    exists p, (E + k1), k1. repeat split; try lia.
  - assert (mr = 2 ^ 53) as Hmr by lia.
    rewrite (shr_fexp_54 mr (E + k1) loc_Exact)
      by (try apply Zdigits2_unique; lia).
    rewrite Hmr. simpl shr_m.
    destruct (Z.leb_spec (E + k1 + 1) (1024 - 53)); [|lia].
    eexists _, (E + k1 + 1), (k1 + 1). split; [reflexivity|].
    repeat split; try lia.
    rewrite Z.pow_add_r by lia. rewrite Hmr in Hbound.
    change (2 ^ 53) with (2 * 2 ^ 52) in Hbound.
    change (Z.pos 4503599627370496) with (2 ^ 52). lia.
Qed.

(** The quotient of two positive integers, [a < 2^31 * b] and [b < 2^63]:
    a normal binary64 within half a unit in the last place of [a / b]. *)
Lemma SFdiv_int_rounds (a b : positive) :
  Zpos a < 2 ^ 31 * Zpos b -> Zpos b < 2 ^ 63 ->
  exists m e,
    SFdiv 53 1024 (int_operand (Zpos a)) (int_operand (Zpos b))
      = S754_finite false m e /\
    2 ^ 52 <= Zpos m < 2 ^ 53 /\ -1074 <= e < 0 /\
    Z.abs (2 * (Zpos m * Zpos b - Zpos a * 2 ^ (- e))) <= Zpos b.
Proof.
  intros Hab Hb.
  pose proof (digits2_pos_bounds a) as [Ha1 Ha2].
  pose proof (digits2_pos_bounds b) as [Hb1 Hb2].
  set (d1 := Zpos (digits2_pos a)) in *.
  set (d2 := Zpos (digits2_pos b)) in *.
  assert (0 < d1) as Hd1 by (unfold d1; lia).
  assert (0 < d2) as Hd2 by (unfold d2; lia).
  assert (d2 <= 63) as Hd2'.
  { destruct (Z_le_gt_dec d2 63); [assumption|].
    assert (2 ^ 63 <= 2 ^ (d2 - 1)) by (apply Z.pow_le_mono_r; lia). lia. }
  assert (d1 <= d2 + 31) as Hd12.
  { destruct (Z_le_gt_dec d1 (d2 + 31)); [assumption|].
    assert (2 ^ (d2 + 31) <= 2 ^ (d1 - 1)) by (apply Z.pow_le_mono_r; lia).
    rewrite Z.pow_add_r in * by lia. lia. }
  set (K := d2 + 53 - d1).
  assert (22 <= K <= 115) as HK by (unfold K; lia).
  unfold int_operand, SFdiv, SFdiv_core_binary. simpl xorb.
  simpl Zdigits2. fold d1 d2.
  replace (Z.min (fexp 53 1024 (d1 + 0 - (d2 + 0))) (0 - 0)) with (- K)
    by (unfold fexp, emin, K; lia).
  replace (0 - 0 - - K) with K by lia.
  destruct K as [|pK|pK] eqn:HKe; try lia.
  rewrite <- HKe. rewrite Z.shiftl_mul_pow2 by lia.
  pose proof (Z.div_eucl_eq (Zpos a * 2 ^ K) (Zpos b)) as Hdiv.
  pose proof (Z.mod_pos_bound (Zpos a * 2 ^ K) (Zpos b)) as Hmod.
  unfold Z.modulo in Hmod.
  destruct (Z.div_eucl (Zpos a * 2 ^ K) (Zpos b)) as [q r].
  specialize (Hdiv ltac:(lia)). specialize (Hmod ltac:(lia)).
  assert (2 ^ K * 2 ^ (d1 - 1) = 2 ^ (d2 + 52)) as Hp1.
  { rewrite <- Z.pow_add_r by lia. f_equal. unfold K in HKe |- *. lia. }
  assert (2 ^ K * 2 ^ d1 = 2 ^ (d2 + 53)) as Hp2.
  { rewrite <- Z.pow_add_r by lia. f_equal. unfold K in HKe |- *. lia. }
  assert (2 ^ (d2 + 52) = 2 ^ 52 * (2 * 2 ^ (d2 - 1))) as Hp3.
  { rewrite <- Z.pow_succ_r by lia. rewrite <- Z.pow_add_r by lia.
    f_equal. lia. }
  assert (2 ^ (d2 + 53) = 2 ^ 54 * 2 ^ (d2 - 1)) as Hp4.
  { rewrite <- Z.pow_add_r by lia. f_equal. lia. }
  assert (0 < 2 ^ K) as HpK by (apply Z.pow_pos_nonneg; lia).
  assert (0 < 2 ^ (d2 - 1)) as Hpd by (apply Z.pow_pos_nonneg; lia).
  assert (2 ^ 52 <= q < 2 ^ 54) as Hq.
  { split.
    - destruct (Z_le_gt_dec (2 ^ 52) q); [assumption|]. exfalso.
      assert (Zpos b * q + r < Zpos b * 2 ^ 52) by nia.
      assert (2 ^ (d2 + 52) <= Zpos a * 2 ^ K) by nia.
      assert (Z.pos b * 2 ^ 52 < 2 ^ (d2 + 52)).
      { rewrite Hp3. replace (2 * 2 ^ (d2 - 1)) with (2 ^ d2); [nia|].
        rewrite <- Z.pow_succ_r by lia. f_equal. lia. }
      lia.
    - destruct (Z_lt_le_dec q (2 ^ 54)); [assumption|]. exfalso.
      assert (Zpos a * 2 ^ K < 2 ^ (d2 + 53)) by nia.
      assert (2 ^ 54 * 2 ^ (d2 - 1) <= Zpos b * q) by nia.
      lia. }
  destruct (binary_round_aux_ok q (Zpos a * 2 ^ K) (Zpos b) (- K)
              (new_location (Zpos b) r))
    as (m & e & k & Hres & Hm & He & Hk & Hbd);
    [exact Hq | lia | lia | |].
  { replace (Zpos a * 2 ^ K) with (q * Zpos b + r) by lia.
    apply new_location_ok; lia. }
  exists m, e. split; [exact Hres|]. split; [exact Hm|]. split; [lia|].
  replace (- e) with (K - k) by lia.
  assert (2 ^ K = 2 ^ k * 2 ^ (K - k)) as HKk.
  { rewrite <- Z.pow_add_r by lia. f_equal. lia. }
  rewrite HKk in Hbd.
  assert (0 < 2 ^ k) as Hpk by (apply Z.pow_pos_nonneg; lia).
  replace (2 * (Z.pos m * (2 ^ k * Z.pos b) - Z.pos a * (2 ^ k * 2 ^ (K - k))))
    with (2 ^ k * (2 * (Zpos m * Zpos b - Zpos a * 2 ^ (K - k)))) in Hbd
    by ring.
  rewrite Z.abs_mul in Hbd. rewrite (Z.abs_eq (2 ^ k)) in Hbd by lia.
  nia.
Qed.

(** [a / b] for [0 <= a < 2^31 * b] and [0 < b < 2^63] raises nothing and is
    [a / b] rounded. *)
Lemma truediv_rounded a b :
  0 <= a < 2 ^ 31 * b -> 0 < b < 2 ^ 63 ->
  exists f, truediv a b = Ok f /\ is_rounded_fraction f a b.
Proof.
  intros Ha Hb. unfold truediv.
  destruct (Z.eqb_spec b 0) as [->|_]; [lia|].
  destruct b as [|pb|pb]; try lia.
  destruct a as [|pa|pa]; try lia.
  - exists (S754_zero false). split; reflexivity.
  - destruct (SFdiv_int_rounds pa pb) as (m & e & -> & Hm & He & Hbd);
      [lia | lia |].
    exists (S754_finite false m e). split; [reflexivity|].
    simpl. repeat split; try lia.
    unfold bounded, canonical_mantissa, fexp, emin.
    change (Zpos (digits2_pos m)) with (Zdigits2 (Zpos m)).
    rewrite (Zdigits2_unique (Zpos m) 53) by lia.
    apply andb_true_intro. split; [apply Z.eqb_eq | apply Z.leb_le]; lia.
Qed.

(** A rounded quotient is the quotient itself when the division of the
    integers leaves no remainder. *)
Lemma is_rounded_fraction_whole f p q j :
  0 < q -> p = j * q -> is_rounded_fraction f p q ->
  is_fraction (PyFloat f) p q.
Proof.
  intros Hq -> Hr. destruct f as [[]|[]| |[] m e]; simpl in *; try tauto.
  destruct Hr as (_ & _ & He & Hbd).
  destruct (Z.leb_spec 0 e); [lia|].
  assert (Zpos m - j * 2 ^ (- e) = 0) by nia. nia.
Qed.

(** ** [sum] *)

Lemma fold_left_add_acc l a : fold_left Z.add l a = a + sum l.
Proof.
  unfold sum. revert a. induction l as [|x l IH]; intros a; cbn [fold_left].
  - lia.
  - rewrite (IH (a + x)), (IH (0 + x)). lia.
Qed.

Lemma sum_cons x l : sum (x :: l) = x + sum l.
Proof. unfold sum at 1. simpl. apply fold_left_add_acc. Qed.

Lemma sum_bounds l M :
  Forall (fun r => 0 <= r <= M) l ->
  0 <= sum l <= M * Z.of_nat (length l).
Proof.
  induction 1 as [|x l Hx _ IH]; [unfold sum; simpl; lia|].
  rewrite sum_cons. simpl length. lia.
Qed.

(** ** The average rating *)

(** Ratings 1, 1 and 2 average to the float [0x1.5555555555555p+0], printed
    1.3333333333333333; a listing without reviews averages to the integer
    0. *)
Example average_rating_example :
  average_rating ex_db_reviewed 1
    = Ok (PyFloat (S754_finite false 6004799503160661 (-52))) /\
  average_rating ex_db 1 = Ok (PyInt 0).
Proof. vm_compute. split; reflexivity. Qed.

(** C6, as stated, fails: the average of the ratings 1, 1 and 2 is a float,
    and no float is 4/3. *)
Lemma average_rating_is_not_exact :
  ~ (forall db k,
       let rs := rating <$> Listing_reviews db k in
       (rs = [] -> average_rating db k = Ok (PyInt 0)) /\
       (rs ≠ [] ->
        exists v, average_rating db k = Ok v /\
                  is_fraction v (sum rs) (Z.of_nat (length rs)))).
Proof.
  intros Hclaim. destruct (Hclaim ex_db_reviewed 1%nat) as [_ Hmean].
  destruct Hmean as (v & Hv & Hfrac); [vm_compute; discriminate|].
  destruct average_rating_example as [Hex _]. rewrite Hex in Hv.
  injection Hv as <-. vm_compute in Hfrac. discriminate Hfrac.
Qed.

(** C6, amended.  [average_rating] is the integer 0 when the listing has no
    reviews.  Otherwise, for ratings within the column's range and fewer
    than 2^63 reviews, it is the float that dividing the sum of the ratings
    by their number gives: the arithmetic mean rounded to a binary64, at
    most half a unit in the last place away from it (a relative error of at
    most 2^-53), and the mean itself when the mean is a whole number. *)
Theorem average_rating_rounds_mean (db : DB) (k : nat) :
  let rs := rating <$> Listing_reviews db k in
  let n := Z.of_nat (length rs) in
  (rs = [] -> average_rating db k = Ok (PyInt 0)) /\
  (rs ≠ [] -> Forall (fun r => 0 <= r <= 2147483647) rs -> n < 2 ^ 63 ->
   exists f, average_rating db k = Ok (PyFloat f) /\
     is_rounded_fraction f (sum rs) n /\
     (forall j, sum rs = j * n -> is_fraction (PyFloat f) (sum rs) n)).
Proof.
  intros rs n. unfold average_rating. subst rs n.
  destruct (Listing_reviews db k) as [|rv l] eqn:Hrev.
  - split; [reflexivity | intros Hne; by destruct Hne].
  - split; [discriminate|]. intros _ Hrange Hn.
    rewrite length_fmap in Hn |- *.
    set (rs := rating <$> rv :: l) in *.
    set (n := Z.of_nat (length (rv :: l))) in *.
    assert (0 < n) as Hpos by (unfold n; simpl; lia).
    pose proof (sum_bounds rs 2147483647 Hrange) as Hsum.
    unfold rs in Hsum at 3. rewrite length_fmap in Hsum. fold n in Hsum.
    destruct (truediv_rounded (sum rs) n) as (f & Hf & Hr); [lia | lia |].
    exists f. rewrite Hf. split; [reflexivity|]. split; [exact Hr|].
    intros j Hj. by apply (is_rounded_fraction_whole f (sum rs) n j).
Qed.

(** Five-star reviews only average to exactly 5.0. *)
Example average_rating_whole :
  average_rating
    (mkDB {[ 1%nat := ex_listing ]} ∅
          {[ 1%nat := mkReview 1%nat 11%nat 2%nat 5 "";
             2%nat := mkReview 1%nat 12%nat 3%nat 5 "";
             3%nat := mkReview 1%nat 13%nat 4%nat 5 "" ]}) 1
  = Ok (PyFloat (S754_finite false 5629499534213120 (-50))) /\
  5629499534213120 = 5 * 2 ^ 50.
Proof. vm_compute. split; reflexivity. Qed.


Lemma average_rating_rounds_mean_witness :
  exists f, average_rating ex_db_reviewed 1 = Ok (PyFloat f) /\
            is_rounded_fraction f 4 3.
Proof.
  pose proof (average_rating_rounds_mean ex_db_reviewed 1) as H.
  cbv zeta in H. apply proj2 in H.
  assert (rating <$> Listing_reviews ex_db_reviewed 1 = [1; 2; 1]) as Hrs.
  { vm_compute. reflexivity. }
  rewrite Hrs in H.
  specialize (H ltac:(discriminate)).
  specialize (H ltac:(repeat (constructor; [split; discriminate|]);
                      constructor)).
  specialize (H ltac:(reflexivity)).
  destruct H as (f & Hf & Hr & _).
  exists f. split; [exact Hf | exact Hr].
Defined.

(** * Further properties *)

(** ** [BookingSerializer.validate] *)

(** X1. [BookingSerializer.validate] accepts exactly the data whose
    check-out is after its check-in, whose guests fit the listing and whose
    listing is available, and returns them as they came.  Of several
    failures the first in this order is the one reported: dates, then
    capacity, then availability. *)
Theorem validate_accepts_iff (data : Attrs) :
  (BookingSerializer_validate data = inr data <->
   attrs_check_in data < attrs_check_out data /\
   attrs_guests_count data <= max_guests (attrs_listing data) /\
   is_available (attrs_listing data) = true) /\
  (forall data', BookingSerializer_validate data = inr data' -> data' = data) /\
  (attrs_check_out data <= attrs_check_in data ->
   BookingSerializer_validate data
   = inl (NonFieldError "Check-out date must be after check-in date")) /\
  (attrs_check_in data < attrs_check_out data ->
   max_guests (attrs_listing data) < attrs_guests_count data ->
   BookingSerializer_validate data
   = inl (NonFieldError ("Maximum guests allowed is "
                         +:+ pretty (max_guests (attrs_listing data))))) /\
  (attrs_check_in data < attrs_check_out data ->
   attrs_guests_count data <= max_guests (attrs_listing data) ->
   is_available (attrs_listing data) = false ->
   BookingSerializer_validate data
   = inl (NonFieldError "This listing is not available")).
Proof.
  unfold BookingSerializer_validate.
  destruct (Z.leb_spec (attrs_check_out data) (attrs_check_in data)) as [Hd|Hd];
    [|destruct (Z.ltb_spec (max_guests (attrs_listing data))
                           (attrs_guests_count data)) as [Hg|Hg];
      [|destruct (is_available (attrs_listing data)) eqn:Ha; simpl]];
    repeat split; try discriminate; try congruence; try lia;
    try (intros (? & ? & ?); first [lia | discriminate]).
Qed.

(** ** The detail lookup and the collection *)





(** X5. The [status] parameter is compared with the stored value as it is:
    a value that is not one of the four stored statuses, such as
    [Pending] with a capital, lists nothing. *)
Theorem booking_list_unknown_status (today : date) (request : Request)
  (db : DB) (s : string) :
  param_status request = Some s -> s ≠ "" ->
  (forall st, status_value st ≠ s) ->
  BookingViewSet_list today request db = [].
Proof.
  intros Hs Hne Hno. apply elem_of_nil_inv. intros b Hb.
  apply elem_of_BookingViewSet_list in Hb as [_ Hq].
  apply get_queryset_spec in Hq as (_ & Hst & _).
  exact (Hno _ (Hst s Hs Hne)).
Qed.

Lemma booking_list_unknown_status_witness :
  BookingViewSet_list (ymd 2024 5 1) (mkRequest 2%nat (Some "Pending") None)
                      (ex_db_booked 10000 pending) = [].
Proof.
  apply (booking_list_unknown_status _ _ _ "Pending");
    [reflexivity | discriminate | intros []; discriminate].
Defined.


(** ** More on [Booking.save] *)

Lemma set_pk_id b k : pk b = Some k -> set_pk k b = b.
Proof. destruct b. simpl. by intros ->. Qed.

Lemma Booking_price_set_pk b b1 k :
  Booking_price b = Ok b1 -> Booking_price (set_pk k b) = Ok (set_pk k b1).
Proof.
  unfold Booking_price. simpl.
  destruct (check_in b), (check_out b); try by intros [= <-].
  destruct (listing b); [|discriminate].
  destruct (0 <? _); by intros [= <-].
Qed.

Lemma Booking_price_again b b1 :
  Booking_price b = Ok b1 -> Booking_price b1 = Ok b1.
Proof.
  unfold Booking_price.
  destruct (check_in b) as [ci|] eqn:Hci, (check_out b) as [co|] eqn:Hco.
  2-4: intros [= <-]; by rewrite ?Hci, ?Hco.
  destruct (listing b) as [l|] eqn:Hl; [|discriminate].
  destruct (0 <? co - ci) eqn:Hn; intros [= <-]; simpl.
  - rewrite Hci, Hco, Hl, Hn. reflexivity.
  - rewrite Hci, Hco, Hl, Hn. reflexivity.
Qed.

Lemma Model_save_inv b db b' db' :
  Model_save b db = Ok (b', db') ->
  exists k r, to_row b = Some r /\ b' = set_pk k b /\
    db' = set_bookings (<[k := r]> (bookings db)) db /\
    (pk b = Some k \/ (pk b = None /\ bookings db !! k = None)).
Proof.
  unfold Model_save. destruct (to_row b) as [r|]; [|discriminate].
  destruct (pk b) as [k|] eqn:Hpk; intros [= <- <-].
  - exists k, r. rewrite (set_pk_id b k Hpk). auto.
  - exists (fresh (dom (bookings db))), r. repeat split; auto.
    right. split; [reflexivity|]. apply not_elem_of_dom, is_fresh.
Qed.

(** A save that succeeded, repeated on the object it returned, computes
    the same price and writes the same row. *)
Lemma Booking_save_again b db b' db' :
  Booking_save b db = Ok (b', db') ->
  exists k r, pk b' = Some k /\ bookings db' !! k = Some r /\
    Booking_save b' db'
    = Ok (b', set_bookings (<[k := r]> (bookings db')) db').
Proof.
  unfold Booking_save.
  destruct (Booking_price b) as [b1|] eqn:Hp; [|discriminate]. simpl.
  intros Hm. apply Model_save_inv in Hm as (k & r & Hrow & -> & -> & _).
  exists k, r. split; [reflexivity|].
  split; [simpl; by rewrite lookup_insert_eq|].
  rewrite (Booking_price_set_pk b1 b1 k (Booking_price_again b b1 Hp)). simpl.
  unfold Model_save. simpl.
  assert (to_row (set_pk k b1) = Some r) as -> by exact Hrow.
  reflexivity.
Qed.

(** X7. A save repeated writes the same values: after a save that
    succeeded, a second save of the object it returned succeeds under the
    same key with the same price and status, and leaves the listing, the
    guest, the dates, the number of guests, the price, the status and the
    requests of the row, every other booking, the listings and the reviews
    as the first save left them.  The statement is about these columns:
    [updated_at] is rewritten by each save. *)
Theorem save_again_writes_same_values (b : Booking) (db : DB) (b' : Booking)
  (db' : DB) :
  Booking_save b db = Ok (b', db') ->
  exists k r b'' db'' r',
    pk b' = Some k /\ bookings db' !! k = Some r /\
    Booking_save b' db' = Ok (b'', db'') /\
    pk b'' = Some k /\ total_price b'' = total_price b' /\
    status b'' = status b' /\
    bookings db'' !! k = Some r' /\
    row_listing_id r' = row_listing_id r /\ row_guest r' = row_guest r /\
    row_check_in r' = row_check_in r /\ row_check_out r' = row_check_out r /\
    row_guests_count r' = row_guests_count r /\
    row_total_price r' = row_total_price r /\ row_status r' = row_status r /\
    row_special_requests r' = row_special_requests r /\
    (forall k', k' ≠ k -> bookings db'' !! k' = bookings db' !! k') /\
    listings db'' = listings db' /\ reviews db'' = reviews db'.
Proof.
  intros Hs.
  destruct (Booking_save_again b db b' db' Hs) as (k & r & Hk & Hr & Hs').
  exists k, r, b', (set_bookings (<[k := r]> (bookings db')) db'), r.
  split; [exact Hk|]. split; [exact Hr|]. split; [exact Hs'|].
  split; [exact Hk|]. simpl. rewrite lookup_insert_eq.
  repeat split. intros k' Hne. by rewrite lookup_insert_ne.
Qed.

(** A booking of three nights at 100.00 is saved, then saved again: both
    saves leave 300.00 under key 0. *)
Lemma save_again_writes_same_values_witness :
  exists b' db' b'' db'' r',
    Booking_save (new_booking 2%nat ex_attrs) ex_db = Ok (b', db') /\
    Booking_save b' db' = Ok (b'', db'') /\
    bookings db'' !! 0%nat = Some r' /\ row_total_price r' = 30000 /\
    row_status r' = pending.
Proof.
  pose (r := mkBookingRow 1%nat 2%nat 739038 739041 2 30000 pending "").
  pose (b' := from_row 0 r ex_listing).
  pose (db' := mkDB {[ 1%nat := ex_listing ]} {[ 0%nat := r ]} ∅).
  assert (Booking_save (new_booking 2%nat ex_attrs) ex_db = Ok (b', db'))
    as Hs by (vm_compute; reflexivity).
  destruct (save_again_writes_same_values _ _ _ _ Hs)
    as (k & r0 & b'' & db'' & r' & Hk & Hr0 & Hs' & _ & _ & _ & Hr'
        & _ & _ & _ & _ & _ & Hp & Hst & _).
  assert (k = 0%nat) as -> by (simpl in Hk; congruence).
  vm_compute in Hr0. injection Hr0 as <-.
  exists b', db', b'', db'', r'. split; [exact Hs|]. split; [exact Hs'|].
  split; [exact Hr'|]. split; [exact Hp | exact Hst].
Defined.

(** X8. When the stay has no positive number of nights (check-out on or
    before check-in), [save] computes nothing: an object without a price
    cannot be stored (the insert raises [IntegrityError]), and an object
    with a price is stored with that price, whatever the listing costs. *)
Theorem save_without_nights_keeps_price (b : Booking) (db : DB) (l : Listing)
  (ci co : date) :
  listing b = Some l -> check_in b = Some ci -> check_out b = Some co ->
  co <= ci ->
  Booking_save b db = Model_save b db /\
  (total_price b = None -> Booking_save b db = Raise IntegrityError) /\
  (forall p, total_price b = Some p -> is_Some (listing_id b) ->
     exists b' db' k, Booking_save b db = Ok (b', db') /\
       total_price b' = Some p /\ pk b' = Some k /\
       row_total_price <$> bookings db' !! k = Some p).
Proof.
  intros Hl Hci Hco Hn.
  assert (Booking_save b db = Model_save b db) as Hs.
  { unfold Booking_save.
    rewrite (Booking_price_no_nights b l ci co Hl Hci Hco); [reflexivity|lia]. }
  split; [exact Hs|]. rewrite Hs. split.
  - intros Hp. unfold Model_save, to_row. rewrite Hp.
    by destruct (listing_id b), (check_in b), (check_out b).
  - intros p Hp [lid Hlid]. unfold Model_save, to_row.
    rewrite Hlid, Hci, Hco, Hp.
    destruct (pk b) as [k|] eqn:Hpk.
    + eexists _, _, k. split; [reflexivity|]. split; [exact Hp|].
      split; [exact Hpk|]. simpl. by rewrite lookup_insert_eq.
    + eexists _, _, _. split; [reflexivity|]. split; [exact Hp|].
      split; [reflexivity|]. simpl. by rewrite lookup_insert_eq.
Qed.

(** A booking stored at 300.00 whose dates are the same day: saved again
    while the night costs 150.00, it still costs 300.00. *)
Lemma save_without_nights_keeps_price_witness :
  exists b' db' k,
    Booking_save
      (from_row 7 (mkBookingRow 1%nat 2%nat 739038 739038 2 30000 pending "")
                (mkListing 15000 4 true 1%nat)) ex_db = Ok (b', db') /\
    total_price b' = Some 30000 /\ pk b' = Some k /\
    row_total_price <$> bookings db' !! k = Some 30000.
Proof.
  destruct (save_without_nights_keeps_price
              (from_row 7
                 (mkBookingRow 1%nat 2%nat 739038 739038 2 30000 pending "")
                 (mkListing 15000 4 true 1%nat))
              ex_db (mkListing 15000 4 true 1%nat) 739038 739038)
    as (_ & _ & Hkeep);
    [reflexivity | reflexivity | reflexivity | discriminate |].
  apply (Hkeep 30000); [reflexivity | by eexists].
Defined.

(** X9. A successful save writes one row of the bookings table and nothing
    else: the listings, the reviews and every other booking are as before.
    The row written is the object's own when it has a key; otherwise it is
    put under a key that no booking had, so an insert overwrites nothing.
    The guest and the status of the object are stored as they were. *)
Theorem save_writes_one_row (b : Booking) (db : DB) (b' : Booking) (db' : DB) :
  Booking_save b db = Ok (b', db') ->
  listings db' = listings db /\ reviews db' = reviews db /\
  exists k r, pk b' = Some k /\ bookings db' !! k = Some r /\
    row_guest r = guest b /\ row_status r = status b /\
    (forall k', k' ≠ k -> bookings db' !! k' = bookings db !! k') /\
    (pk b = None -> bookings db !! k = None) /\
    (forall k0, pk b = Some k0 -> k0 = k).
Proof.
  unfold Booking_save.
  destruct (Booking_price b) as [b1|] eqn:Hp; [|discriminate]. simpl.
  intros Hm. apply Model_save_inv in Hm as (k & r & Hrow & -> & -> & Hk).
  assert (pk b1 = pk b /\ guest b1 = guest b /\ status b1 = status b)
    as (Hpk & Hg & Hst).
  { unfold Booking_price in Hp.
    destruct (check_in b), (check_out b); try by injection Hp as <-.
    destruct (listing b); [|discriminate].
    destruct (0 <? _); by injection Hp as <-. }
  split; [reflexivity|]. split; [reflexivity|].
  exists k, r. simpl. rewrite lookup_insert_eq.
  split; [reflexivity|]. split; [reflexivity|].
  unfold to_row in Hrow.
  destruct (listing_id b1), (check_in b1), (check_out b1), (total_price b1);
    try discriminate.
  injection Hrow as <-. simpl.
  split; [exact Hg|]. split; [exact Hst|]. split; [|split].
  - intros k' Hne. by rewrite lookup_insert_ne.
  - intros Hnone. rewrite Hpk in Hk. destruct Hk as [Hk|[_ Hk]];
      [congruence | exact Hk].
  - intros k0 Hk0. rewrite Hpk in Hk. destruct Hk as [Hk|[Hk _]]; congruence.
Qed.

Lemma save_writes_one_row_witness :
  exists b' db' k r,
    Booking_save (new_booking 2%nat ex_attrs) (ex_db_booked 10000 confirmed)
      = Ok (b', db') /\
    pk b' = Some k /\ bookings db' !! k = Some r /\
    bookings db' !! 7%nat = Some (ex_row confirmed).
Proof.
  pose (r := mkBookingRow 1%nat 2%nat 739038 739041 2 30000 pending "").
  pose (db' := mkDB {[ 1%nat := ex_listing ]}
                 (<[ 8%nat := r ]> {[ 7%nat := ex_row confirmed ]}) ∅).
  assert (Booking_save (new_booking 2%nat ex_attrs)
            (ex_db_booked 10000 confirmed)
          = Ok (from_row 8 r ex_listing, db')) as Hs
    by (vm_compute; reflexivity).
  destruct (save_writes_one_row _ _ _ _ Hs)
    as (_ & _ & k & r' & Hpk & Hr' & _ & _ & Hothers & _).
  exists (from_row 8 r ex_listing), db', k, r'.
  split; [exact Hs|]. split; [exact Hpk|]. split; [exact Hr'|].
  rewrite Hothers; [reflexivity|]. intros <-. simpl in Hpk. discriminate.
Defined.

(** ** More on creation *)

(** What a 201 tells: the row written, under a key that was free. *)
Lemma create_201_inv request d db resp db' :
  BookingViewSet_create request d db = Ok (resp, db') ->
  status_code resp = HTTP_201_CREATED ->
  exists l,
    listings db !! data_listing d = Some l /\
    0 <= data_guests_count d /\ data_check_in d < data_check_out d /\
    let k := fresh (dom (bookings db)) in
    let r := mkBookingRow (data_listing d) (user request) (data_check_in d)
               (data_check_out d) (data_guests_count d)
               (price_per_night l * (data_check_out d - data_check_in d))
               pending (data_special_requests d) in
    bookings db !! k = None /\
    resp = mkResponse HTTP_201_CREATED (Data (from_row k r l)) /\
    db' = set_bookings (<[k := r]> (bookings db)) db.
Proof.
  intros Hc Hcode.
  destruct (listings db !! data_listing d) as [l|] eqn:Hl.
  - destruct (Z.lt_ge_cases (data_guests_count d) 0) as [Hg|Hg].
    + unfold BookingViewSet_create, run_validation, to_internal_value in Hc.
      rewrite Hl in Hc.
      destruct (Z.ltb_spec (data_guests_count d) 0); [|lia].
      injection Hc as <- <-. discriminate Hcode.
    + destruct (Z.lt_ge_cases (data_check_in d) (data_check_out d)) as [Hd|Hd].
      * destruct (create_persists request d db l Hl Hg Hd) as [Hfree Heq].
        rewrite Heq in Hc. injection Hc as <- <-.
        exists l. repeat split; auto.
      * unfold BookingViewSet_create in Hc.
        rewrite (create_validation_accepts d db l Hl Hg) in Hc.
        unfold perform_create, Serializer_save, Booking_save in Hc.
        rewrite (Booking_price_no_nights _ l (data_check_in d)
                   (data_check_out d)) in Hc;
          [discriminate Hc | reflexivity | reflexivity | reflexivity
          | simpl; lia].
  - unfold BookingViewSet_create, run_validation, to_internal_value in Hc.
    rewrite Hl in Hc. injection Hc as <- <-. discriminate Hcode.
Qed.

(** X10. Every booking the API creates is well formed: a 201 means that the
    dates are in order and that one row was stored, under a key no booking
    had, for the listing, the dates and the number of guests of the body,
    with the requesting user as guest, the status pending and, as price,
    the listing's price per night times the nights; nothing else in the
    database changed.  The statement is for prices that fit the ten digits
    of the column, and names the row by its place in the table: the body
    of the response carries neither the key nor the price. *)
Theorem created_booking_is_well_formed (request : Request) (d : RequestData)
  (db : DB) (l : Listing) (resp : Response) (db' : DB) :
  listings db !! data_listing d = Some l ->
  fits_max_digits (price_per_night l * (data_check_out d - data_check_in d))
    = true ->
  BookingViewSet_create request d db = Ok (resp, db') ->
  status_code resp = HTTP_201_CREATED ->
  data_check_in d < data_check_out d /\
  listings db' = listings db /\ reviews db' = reviews db /\
  exists k r,
    bookings db !! k = None /\ bookings db' !! k = Some r /\
    row_listing_id r = data_listing d /\
    row_guest r = user request /\ row_status r = pending /\
    row_check_in r = data_check_in d /\ row_check_out r = data_check_out d /\
    row_guests_count r = data_guests_count d /\
    row_total_price r
      = price_per_night l * (row_check_out r - row_check_in r) /\
    fits_max_digits (row_total_price r) = true /\
    (forall k', k' ≠ k -> bookings db' !! k' = bookings db !! k').
Proof.
  intros Hl Hfit Hc Hcode.
  destruct (create_201_inv request d db resp db' Hc Hcode)
    as (l0 & Hl0 & Hg & Hd & Hfree & _ & ->).
  assert (l0 = l) as -> by congruence.
  split; [exact Hd|]. split; [reflexivity|]. split; [reflexivity|].
  eexists _, _. split; [exact Hfree|]. simpl. rewrite lookup_insert_eq.
  split; [reflexivity|]. simpl. repeat split; auto.
  intros k' Hne. by rewrite lookup_insert_ne.
Qed.

Lemma created_booking_is_well_formed_witness :
  exists k r,
    bookings ex_db !! k = None /\
    row_guest r = 2%nat /\ row_status r = pending /\
    row_total_price r = 10000 * (row_check_out r - row_check_in r).
Proof.
  pose (r := mkBookingRow 1%nat 2%nat 739038 739041 2 30000 pending "").
  pose (resp := mkResponse 201 (Data (from_row 0 r ex_listing))).
  pose (db' := mkDB {[ 1%nat := ex_listing ]} {[ 0%nat := r ]} ∅).
  assert (BookingViewSet_create ex_request ex_data ex_db = Ok (resp, db'))
    as Hc by (vm_compute; reflexivity).
  destruct (created_booking_is_well_formed ex_request ex_data ex_db
              ex_listing resp db')
    as (_ & _ & _ & k & r' & Hfree & _ & _ & Hg & Hst & _ & _ & _ & Hp & _);
    [reflexivity | reflexivity | exact Hc | reflexivity |].
  exists k, r'. split; [exact Hfree|]. split; [exact Hg|].
  split; [exact Hst | exact Hp].
Defined.


(** X12. What was created can be read back: after a 201 there is a booking,
    under a key that was free, that the requesting user gets by that key,
    with themselves as guest, the status pending and the listing and dates
    of the body, and that is in the collection of that user and in the
    collection of the listing's host.  The statement is for a price that
    fits the ten digits of the column, in a table whose prices all do: a
    wider price is stored by the creation and fails every later read. *)
Theorem created_booking_is_found (today : date) (request : Request)
  (d : RequestData) (db : DB) (l : Listing) (resp : Response) (db' : DB) :
  listings db !! data_listing d = Some l ->
  fits_max_digits (price_per_night l * (data_check_out d - data_check_in d))
    = true ->
  prices_fit db = true ->
  BookingViewSet_create request d db = Ok (resp, db') ->
  status_code resp = HTTP_201_CREATED ->
  prices_fit db' = true /\
  exists k b,
    bookings db !! k = None /\
    get_object today (mkRequest (user request) None None) k db'
      = Ok (inr b) /\
    pk b = Some k /\ guest b = user request /\ status b = pending /\
    listing_id b = Some (data_listing d) /\
    check_in b = Some (data_check_in d) /\
    check_out b = Some (data_check_out d) /\
    b ∈ BookingViewSet_list today (mkRequest (user request) None None) db' /\
    b ∈ BookingViewSet_list today (mkRequest (host l) None None) db'.
Proof.
  intros Hl Hfit Hfits Hc Hcode.
  destruct (create_201_inv request d db _ db' Hc Hcode)
    as (l0 & Hl0 & Hg & Hd & Hfree & _ & ->).
  assert (l0 = l) as -> by congruence.
  set (k := fresh (dom (bookings db))) in *.
  set (r := mkBookingRow _ _ _ _ _ _ _ _) in *.
  set (db' := set_bookings (<[k := r]> (bookings db)) db).
  assert (bookings db' !! k = Some r) as Hr
    by (simpl; by rewrite lookup_insert_eq).
  assert (listings db' !! row_listing_id r = Some l) as Hl' by exact Hl.
  assert (forall u, guest_or_host u (from_row k r l) = true ->
            from_row k r l
              ∈ BookingViewSet_list today (mkRequest u None None) db')
    as Hlisted.
  { intros u Hu. apply elem_of_BookingViewSet_list. split.
    - apply elem_of_Booking_objects. exists k, r. split; [exact Hr|].
      apply load_booking_Some. eauto.
    - by rewrite get_queryset_plain. }
  split.
  { unfold prices_fit in *. apply bool_decide_eq_true.
    apply bool_decide_eq_true in Hfits. simpl.
    apply map_Forall_insert_2; [exact Hfit | exact Hfits]. }
  exists k, (from_row k r l). split; [exact Hfree|]. split.
  { rewrite (get_object_stored today _ k db' r l Hr Hl').
    rewrite get_queryset_plain by reflexivity. simpl.
    by rewrite (guest_or_host_guest k r l (user request)). }
  do 6 (split; [reflexivity|]). split.
  - apply Hlisted. by apply guest_or_host_guest.
  - apply Hlisted. by apply guest_or_host_host.
Qed.

(** User 2 books listing 1 while booking 7 is stored: the host of the
    listing finds the new booking in their collection. *)
Lemma created_booking_is_found_witness :
  exists resp db' b,
    BookingViewSet_create ex_request ex_data (ex_db_booked 10000 confirmed)
      = Ok (resp, db') /\
    guest b = 2%nat /\ status b = pending /\
    b ∈ BookingViewSet_list (ymd 2024 5 1) (mkRequest 1%nat None None) db'.
Proof.
  pose (r := mkBookingRow 1%nat 2%nat 739038 739041 2 30000 pending "").
  pose (db' := mkDB {[ 1%nat := ex_listing ]}
                 (<[ 8%nat := r ]> {[ 7%nat := ex_row confirmed ]}) ∅).
  pose (resp := mkResponse HTTP_201_CREATED (Data (from_row 8 r ex_listing))).
  assert (BookingViewSet_create ex_request ex_data
            (ex_db_booked 10000 confirmed) = Ok (resp, db')) as Hc
    by (vm_compute; reflexivity).
  destruct (created_booking_is_found (ymd 2024 5 1) ex_request ex_data
              (ex_db_booked 10000 confirmed) ex_listing resp db')
    as (_ & k & b & _ & _ & _ & Hg & Hst & _ & _ & _ & _ & Hhost);
    [reflexivity | reflexivity | reflexivity | exact Hc | reflexivity |].
  exists resp, db', b. split; [exact Hc|]. split; [exact Hg|].
  split; [exact Hst | exact Hhost].
Defined.

(** ** More on [cancel] and [confirm] *)

Lemma get_object_missing today request k db :
  bookings db !! k = None ->
  get_object today request k db
  = Ok (inl (mkResponse HTTP_404_NOT_FOUND NotFound)).
Proof. intros Hr. unfold get_object, qs_get. by rewrite Hr. Qed.

(** Either action leaves the database as it was, or it rewrites the row of
    its key with a new status and the price of a save. *)
Lemma cancel_cases today request k db :
  (exists resp, cancel today request k db = Ok (resp, db) /\
                status_code resp ≠ HTTP_200_OK) \/
  (exists r l, bookings db !! k = Some r /\
     listings db !! row_listing_id r = Some l /\
     row_guest r = user request /\ row_status r ≠ cancelled /\
     cancel today request k db
     = Ok (mkResponse HTTP_200_OK
             (Data (set_total_price (saved_price l r)
                      (set_status cancelled (from_row k r l)))),
           set_bookings (<[k := saved_row l cancelled r]> (bookings db)) db)).
Proof.
  destruct (bookings db !! k) as [r|] eqn:Hr;
    [destruct (listings db !! row_listing_id r) as [l|] eqn:Hl|].
  - rewrite (cancel_stored today request k db r l Hr Hl).
    destruct (get_queryset today request (from_row k r l)); [|left; answered].
    unfold cancel_outcome. repeat case_decide; try (left; answered).
    right. exists r, l. repeat split; auto; try by apply dec_stable.
  - left. unfold cancel.
    rewrite (get_object_dangling today request k db r Hr Hl). answered.
  - left. unfold cancel. rewrite (get_object_missing today request k db Hr).
    answered.
Qed.

Lemma confirm_cases today request k db :
  (exists resp, confirm today request k db = Ok (resp, db) /\
                status_code resp ≠ HTTP_200_OK) \/
  (exists r l, bookings db !! k = Some r /\
     listings db !! row_listing_id r = Some l /\
     host l = user request /\ row_status r = pending /\
     confirm today request k db
     = Ok (mkResponse HTTP_200_OK
             (Data (set_total_price (saved_price l r)
                      (set_status confirmed (from_row k r l)))),
           set_bookings (<[k := saved_row l confirmed r]> (bookings db)) db)).
Proof.
  destruct (bookings db !! k) as [r|] eqn:Hr;
    [destruct (listings db !! row_listing_id r) as [l|] eqn:Hl|].
  - rewrite (confirm_stored today request k db r l Hr Hl).
    destruct (get_queryset today request (from_row k r l)); [|left; answered].
    unfold confirm_outcome. repeat case_decide; try (left; answered).
    right. exists r, l. repeat split; auto; try by apply dec_stable.
  - left. unfold confirm.
    rewrite (get_object_dangling today request k db r Hr Hl). answered.
  - left. unfold confirm. rewrite (get_object_missing today request k db Hr).
    answered.
Qed.

(** The database after a call: as before, or with the row of one stored
    booking rewritten by a move of its status. *)
Lemma perform_cases a db :
  (exists resp, perform a db = Ok (resp, db)) \/
  (exists resp k r l s, perform a db
     = Ok (resp, set_bookings (<[k := saved_row l s r]> (bookings db)) db) /\
     bookings db !! k = Some r /\ moves_to (row_status r) s /\
     s ≠ completed /\ s ≠ pending).
Proof.
  destruct a as [today request k|today request k]; simpl.
  - destruct (cancel_cases today request k db)
      as [(resp & -> & _)|(r & l & Hr & Hl & Hg & Hst & ->)]; [eauto|].
    right. eexists _, k, r, l, cancelled. split; [reflexivity|].
    split; [exact Hr|]. unfold moves_to. auto.
  - destruct (confirm_cases today request k db)
      as [(resp & -> & _)|(r & l & Hr & Hl & Hh & Hst & ->)]; [eauto|].
    right. eexists _, k, r, l, confirmed. split; [reflexivity|].
    split; [exact Hr|]. unfold moves_to. rewrite Hst. auto.
Qed.

(** X13. [cancel] and [confirm] write at most the row they are called for:
    the listings, the reviews and every other booking are as before, no
    booking appears or disappears, and in the row itself the listing, the
    guest, the dates, the number of guests and the requests are kept.  The
    columns a successful call may rewrite are the status, the total price
    and [updated_at]. *)
Theorem actions_write_one_row (today : date) (request : Request) (k : nat)
  (db : DB) (resp : Response) (db' : DB) :
  cancel today request k db = Ok (resp, db')
  \/ confirm today request k db = Ok (resp, db') ->
  listings db' = listings db /\ reviews db' = reviews db /\
  (forall k', k' ≠ k -> bookings db' !! k' = bookings db !! k') /\
  (bookings db !! k = None -> bookings db' !! k = None) /\
  (forall r, bookings db !! k = Some r ->
     exists r', bookings db' !! k = Some r' /\
       row_listing_id r' = row_listing_id r /\ row_guest r' = row_guest r /\
       row_check_in r' = row_check_in r /\
       row_check_out r' = row_check_out r /\
       row_guests_count r' = row_guests_count r /\
       row_special_requests r' = row_special_requests r).
Proof.
  intros Hact.
  assert (db' = db \/ exists r l s, bookings db !! k = Some r /\
            db' = set_bookings (<[k := saved_row l s r]> (bookings db)) db)
    as [->|(r & l & s & Hr & ->)].
  { destruct Hact as [Hc|Hc].
    - destruct (cancel_cases today request k db)
        as [(resp' & Heq & _)|(r & l & Hr & _ & _ & _ & Heq)];
        rewrite Heq in Hc; injection Hc as _ <-; eauto 10.
    - destruct (confirm_cases today request k db)
        as [(resp' & Heq & _)|(r & l & Hr & _ & _ & _ & Heq)];
        rewrite Heq in Hc; injection Hc as _ <-; eauto 10. }
  - repeat split; auto. intros r Hr. exists r. auto 10.
  - split; [reflexivity|]. split; [reflexivity|]. simpl. split; [|split].
    + intros k' Hne. by rewrite lookup_insert_ne.
    + congruence.
    + intros r0 Hr0. assert (r0 = r) as -> by congruence.
      rewrite lookup_insert_eq. eexists. split; [reflexivity|].
      repeat split.
Qed.

Lemma actions_write_one_row_witness :
  bookings (ex_db_booked 15000 confirmed) !! 7%nat = Some (ex_row confirmed) /\
  exists resp db' r',
    cancel (ymd 2024 5 1) ex_request 7 (ex_db_booked 15000 confirmed)
      = Ok (resp, db') /\
    bookings db' !! 7%nat = Some r' /\ row_guest r' = 2%nat /\
    row_check_in r' = ymd 2024 6 1.
Proof.
  split; [reflexivity|].
  pose (r' := mkBookingRow 1%nat 2%nat 739038 739041 2 45000 cancelled "").
  pose (db' := mkDB {[ 1%nat := mkListing 15000 4 true 1%nat ]}
                    {[ 7%nat := r' ]} ∅).
  pose (resp := mkResponse 200
                  (Data (from_row 7 r' (mkListing 15000 4 true 1%nat)))).
  assert (cancel (ymd 2024 5 1) ex_request 7 (ex_db_booked 15000 confirmed)
          = Ok (resp, db')) as Hc by (vm_compute; reflexivity).
  destruct (actions_write_one_row _ _ _ _ _ _ (or_introl Hc))
    as (_ & _ & _ & _ & Hrow).
  destruct (Hrow (ex_row confirmed) eq_refl)
    as (r0 & Hr0 & _ & Hg & Hci & _).
  exists resp, db', r0. split; [exact Hc|]. split; [exact Hr0|].
  split; [exact Hg | exact Hci].
Defined.

(** X14. An action that succeeded cannot be repeated: once [confirm] has
    answered 200, any further [confirm] of the booking, by anyone, is
    answered without a 200 and changes nothing; once [cancel] has answered
    200, so is any further [cancel] and any [confirm]. *)
Theorem actions_cannot_be_repeated (today : date) (request : Request)
  (k : nat) (db : DB) (resp : Response) (db' : DB) :
  status_code resp = HTTP_200_OK ->
  (confirm today request k db = Ok (resp, db') ->
   forall today' request',
     exists resp', confirm today' request' k db' = Ok (resp', db') /\
                   status_code resp' ≠ HTTP_200_OK) /\
  (cancel today request k db = Ok (resp, db') ->
   forall today' request',
     (exists resp', cancel today' request' k db' = Ok (resp', db') /\
                    status_code resp' ≠ HTTP_200_OK) /\
     (exists resp', confirm today' request' k db' = Ok (resp', db') /\
                    status_code resp' ≠ HTTP_200_OK)).
Proof.
  intros Hcode. split.
  - intros Hc today' request'.
    destruct (confirm_cases today request k db)
      as [(resp0 & Heq & Hno)|(r & l & Hr & Hl & _ & _ & Heq)];
      rewrite Heq in Hc; injection Hc as <- <-; [by destruct Hno|].
    eapply confirm_rejections.
    + simpl. by rewrite lookup_insert_eq.
    + intros l' _. right. discriminate.
  - intros Hc today' request'.
    destruct (cancel_cases today request k db)
      as [(resp0 & Heq & Hno)|(r & l & Hr & Hl & _ & _ & Heq)];
      rewrite Heq in Hc; injection Hc as <- <-; [by destruct Hno|].
    split.
    + eapply cancel_rejections.
      * simpl. by rewrite lookup_insert_eq.
      * intros l' _. right. reflexivity.
    + eapply confirm_rejections.
      * simpl. by rewrite lookup_insert_eq.
      * intros l' _. right. discriminate.
Qed.

Lemma actions_cannot_be_repeated_witness :
  exists resp db',
    confirm (ymd 2024 5 1) ex_host_request 7 (ex_db_booked 10000 pending)
      = Ok (resp, db') /\
    exists resp', confirm (ymd 2024 5 2) ex_host_request 7 db'
                    = Ok (resp', db') /\
                  status_code resp' ≠ HTTP_200_OK.
Proof.
  pose (r' := mkBookingRow 1%nat 2%nat 739038 739041 2 30000 confirmed "").
  pose (db' := mkDB {[ 1%nat := ex_listing ]} {[ 7%nat := r' ]} ∅).
  pose (resp := mkResponse 200 (Data (from_row 7 r' ex_listing))).
  assert (confirm (ymd 2024 5 1) ex_host_request 7
            (ex_db_booked 10000 pending) = Ok (resp, db')) as Hc
    by (vm_compute; reflexivity).
  exists resp, db'. split; [exact Hc|].
  destruct (actions_cannot_be_repeated (ymd 2024 5 1) ex_host_request 7
              (ex_db_booked 10000 pending) resp db' eq_refl) as [Hagain _].
  exact (Hagain Hc (ymd 2024 5 2) ex_host_request).
Defined.

(** ** Sequences of actions *)

Lemma moves_to_trans s1 s2 s3 :
  moves_to s1 s2 -> moves_to s2 s3 -> moves_to s1 s3.
Proof.
  unfold moves_to. intros [->|[->|[-> ->]]] [->|[->|[H ->]]]; auto;
    discriminate.
Qed.

Lemma step_row a db k r :
  bookings db !! k = Some r ->
  exists r', bookings (step db a) !! k = Some r' /\
    moves_to (row_status r) (row_status r') /\
    row_guest r' = row_guest r /\ row_listing_id r' = row_listing_id r.
Proof.
  intros Hr. unfold step.
  destruct (perform_cases a db)
    as [(resp & ->)|(resp & k0 & r0 & l & s & -> & Hr0 & Hm & _)].
  - exists r. unfold moves_to. auto.
  - simpl. destruct (decide (k0 = k)) as [->|Hne].
    + rewrite lookup_insert_eq. assert (r0 = r) as -> by congruence.
      eexists. split; [reflexivity|]. auto.
    + rewrite lookup_insert_ne by exact Hne. exists r.
      unfold moves_to. auto.
Qed.

(** X15. Over any sequence of [cancel] and [confirm] calls, by any users
    with any parameters, the status of a stored booking only moves from
    pending to confirmed or to cancelled: the booking stays stored, with
    its guest and its listing; once cancelled it stays cancelled; it never
    goes back to pending; and it is never made completed. *)
Theorem statuses_only_move_forward (actions : list Action) (db : DB)
  (k : nat) (r : BookingRow) :
  bookings db !! k = Some r ->
  exists r', bookings (run actions db) !! k = Some r' /\
    row_guest r' = row_guest r /\ row_listing_id r' = row_listing_id r /\
    moves_to (row_status r) (row_status r') /\
    (row_status r = cancelled -> row_status r' = cancelled) /\
    (row_status r' = pending -> row_status r = pending) /\
    (row_status r' = completed -> row_status r = completed).
Proof.
  intros Hr.
  assert (exists r', bookings (run actions db) !! k = Some r' /\
            row_guest r' = row_guest r /\
            row_listing_id r' = row_listing_id r /\
            moves_to (row_status r) (row_status r'))
    as (r' & Hr' & Hg & Hl & Hm).
  { unfold run. revert db r Hr.
    induction actions as [|a actions IH]; intros db r Hr; simpl.
    - exists r. unfold moves_to. auto.
    - destruct (step_row a db k r Hr) as (r1 & Hr1 & Hm1 & Hg1 & Hl1).
      destruct (IH (step db a) r1 Hr1) as (r' & Hr' & Hg & Hl & Hm).
      exists r'. split; [exact Hr'|]. split; [congruence|].
      split; [congruence|]. by apply (moves_to_trans _ (row_status r1)). }
  exists r'. split; [exact Hr'|]. split; [exact Hg|]. split; [exact Hl|].
  split; [exact Hm|].
  unfold moves_to in Hm.
  repeat split; intros Hs; destruct Hm as [Hm|[Hm|[Hm1 Hm2]]]; congruence.
Qed.

(** The guest cancels, the host tries to confirm, the guest cancels again:
    booking 7 is and stays cancelled. *)
Lemma statuses_only_move_forward_witness :
  exists r',
    bookings (run [Cancel (ymd 2024 5 1) ex_request 7;
                   Confirm (ymd 2024 5 2) ex_host_request 7;
                   Cancel (ymd 2024 5 3) ex_request 7]
                  (ex_db_booked 10000 pending)) !! 7%nat = Some r' /\
    row_guest r' = 2%nat /\ moves_to pending (row_status r').
Proof.
  destruct (statuses_only_move_forward
              [Cancel (ymd 2024 5 1) ex_request 7;
               Confirm (ymd 2024 5 2) ex_host_request 7;
               Cancel (ymd 2024 5 3) ex_request 7]
              (ex_db_booked 10000 pending) 7 (ex_row pending) eq_refl)
    as (r' & Hr' & Hg & _ & Hm & _).
  exists r'. split; [exact Hr'|]. split; [exact Hg | exact Hm].
Defined.

(** ** Update and deletion *)

Lemma get_queryset_visible today request k r l :
  get_queryset today request (from_row k r l) = true ->
  row_guest r = user request \/ host l = user request.
Proof.
  intros Hq. apply get_queryset_guest_or_host in Hq.
  unfold guest_or_host in Hq. simpl in Hq.
  apply orb_true_iff in Hq as [Hq|Hq]; apply bool_decide_eq_true in Hq;
    [left; exact Hq | right; congruence].
Qed.

Lemma update_validation_accepts d db l :
  listings db !! data_listing d = Some l -> 0 <= data_guests_count d ->
  run_validation (get_serializer_class "update") d db = inr (attrs_of d l).
Proof.
  intros Hl Hg.
  change (get_serializer_class "update") with BookingCreateSerializer.
  unfold run_validation. by rewrite (to_internal_value_ok d db l Hl Hg).
Qed.

(** An update of a stored booking that its queryset selects, with a body
    that passes the field checks: the row it writes. *)
Lemma update_stored today request k d db r l l' :
  bookings db !! k = Some r -> listings db !! row_listing_id r = Some l ->
  get_queryset today request (from_row k r l) = true ->
  listings db !! data_listing d = Some l' -> 0 <= data_guests_count d ->
  BookingViewSet_update today request k d db
  = Ok (mkResponse HTTP_200_OK (Data (from_row k (updated_row d l' r) l')),
        set_bookings (<[k := updated_row d l' r]> (bookings db)) db).
Proof.
  intros Hr Hl Hq Hl' Hg. unfold BookingViewSet_update.
  rewrite (get_object_stored today request k db r l Hr Hl), Hq. simpl.
  rewrite (update_validation_accepts d db l' Hl' Hg).
  unfold Booking_save, Booking_price, updated_row. simpl.
  destruct (0 <? data_check_out d - data_check_in d); reflexivity.
Qed.

(** What a 200 from an update tells. *)
Lemma update_200_inv today request k d db resp db' :
  BookingViewSet_update today request k d db = Ok (resp, db') ->
  status_code resp = HTTP_200_OK ->
  exists r l l', bookings db !! k = Some r /\
    listings db !! row_listing_id r = Some l /\
    get_queryset today request (from_row k r l) = true /\
    listings db !! data_listing d = Some l' /\ 0 <= data_guests_count d /\
    resp = mkResponse HTTP_200_OK (Data (from_row k (updated_row d l' r) l')) /\
    db' = set_bookings (<[k := updated_row d l' r]> (bookings db)) db.
Proof.
  intros Hu Hcode.
  destruct (bookings db !! k) as [r|] eqn:Hr;
    [destruct (listings db !! row_listing_id r) as [l|] eqn:Hl|].
  - destruct (get_queryset today request (from_row k r l)) eqn:Hq.
    + destruct (listings db !! data_listing d) as [l'|] eqn:Hl'.
      * destruct (Z.lt_ge_cases (data_guests_count d) 0) as [Hg|Hg].
        -- unfold BookingViewSet_update in Hu.
           rewrite (get_object_stored today request k db r l Hr Hl), Hq in Hu.
           simpl in Hu.
           unfold run_validation, to_internal_value in Hu. rewrite Hl' in Hu.
           destruct (Z.ltb_spec (data_guests_count d) 0); [|lia].
           injection Hu as <- <-. discriminate Hcode.
        -- rewrite (update_stored today request k d db r l l' Hr Hl Hq Hl' Hg)
             in Hu.
           injection Hu as <- <-. exists r, l, l'. auto 10.
      * unfold BookingViewSet_update in Hu.
        rewrite (get_object_stored today request k db r l Hr Hl), Hq in Hu.
        simpl in Hu.
        unfold run_validation, to_internal_value in Hu. rewrite Hl' in Hu.
        injection Hu as <- <-. discriminate Hcode.
    + unfold BookingViewSet_update in Hu.
      rewrite (get_object_stored today request k db r l Hr Hl), Hq in Hu.
      injection Hu as <- <-. discriminate Hcode.
  - unfold BookingViewSet_update in Hu.
    rewrite (get_object_dangling today request k db r Hr Hl) in Hu.
    injection Hu as <- <-. discriminate Hcode.
  - unfold BookingViewSet_update in Hu.
    rewrite (get_object_missing today request k db Hr) in Hu.
    injection Hu as <- <-. discriminate Hcode.
Qed.

(** X16. An update never changes whose booking it is nor its status: after
    a 200 the stored booking has the guest and the status it had, the
    requesting user is its guest or the host of the listing it was on, and
    nothing else in the database changed. *)
Theorem update_keeps_guest_and_status (today : date) (request : Request)
  (k : nat) (d : RequestData) (db : DB) (resp : Response) (db' : DB) :
  BookingViewSet_update today request k d db = Ok (resp, db') ->
  status_code resp = HTTP_200_OK ->
  listings db' = listings db /\ reviews db' = reviews db /\
  (forall k', k' ≠ k -> bookings db' !! k' = bookings db !! k') /\
  exists r r' l, bookings db !! k = Some r /\ bookings db' !! k = Some r' /\
    listings db !! row_listing_id r = Some l /\
    (row_guest r = user request \/ host l = user request) /\
    row_guest r' = row_guest r /\ row_status r' = row_status r /\
    row_listing_id r' = data_listing d /\
    row_check_in r' = data_check_in d /\ row_check_out r' = data_check_out d.
Proof.
  intros Hu Hcode.
  destruct (update_200_inv today request k d db resp db' Hu Hcode)
    as (r & l & l' & Hr & Hl & Hq & Hl' & Hg & -> & ->).
  split; [reflexivity|]. split; [reflexivity|]. split.
  { intros k' Hne. simpl. by rewrite lookup_insert_ne. }
  exists r, (updated_row d l' r), l. simpl. rewrite lookup_insert_eq.
  repeat split; auto.
  exact (get_queryset_visible today request k r l Hq).
Qed.

Lemma update_keeps_guest_and_status_witness :
  exists resp db' r',
    BookingViewSet_update (ymd 2024 5 1) ex_host_request 7
      (mkRequestData 1%nat (ymd 2024 7 1) (ymd 2024 7 3) 9 "late")
      (ex_db_booked 10000 confirmed) = Ok (resp, db') /\
    bookings db' !! 7%nat = Some r' /\
    row_guest r' = 2%nat /\ row_status r' = confirmed.
Proof.
  pose (d := mkRequestData 1%nat (ymd 2024 7 1) (ymd 2024 7 3) 9 "late").
  pose (r' := mkBookingRow 1%nat 2%nat 739068 739070 9 20000 confirmed
                           "late").
  pose (db' := mkDB {[ 1%nat := ex_listing ]} {[ 7%nat := r' ]} ∅).
  pose (resp := mkResponse 200 (Data (from_row 7 r' ex_listing))).
  assert (BookingViewSet_update (ymd 2024 5 1) ex_host_request 7 d
            (ex_db_booked 10000 confirmed) = Ok (resp, db')) as Hu
    by (vm_compute; reflexivity).
  destruct (update_keeps_guest_and_status _ _ _ _ _ _ _ Hu eq_refl)
    as (_ & _ & _ & r0 & r1 & l & Hr0 & Hr1 & _ & _ & Hg & Hst & _).
  assert (r0 = ex_row confirmed) as ->
    by (apply (inj Some); rewrite <- Hr0; reflexivity).
  exists resp, db', r1. split; [exact Hu|]. split; [exact Hr1|].
  split; [exact Hg | exact Hst].
Defined.

(** X17. An update checks neither dates, capacity nor availability: for a
    stored booking that the request selects, a body naming a listing, with
    a number of guests from 0 to 2147483647 (that every database backend
    holds), is answered 200 when the stored price and the price to store
    fit the ten digits of the column.  With dates in order the booking is
    priced again at the named listing's price; with check-out on or before
    check-in the dates are stored as given and the price stays what it was,
    so the stored price is no longer the price of the stored stay. *)
Theorem update_accepts_any_dates (today : date) (request : Request) (k : nat)
  (d : RequestData) (db : DB) (r : BookingRow) (l l' : Listing) :
  bookings db !! k = Some r -> listings db !! row_listing_id r = Some l ->
  get_queryset today request (from_row k r l) = true ->
  listings db !! data_listing d = Some l' ->
  0 <= data_guests_count d <= 2147483647 ->
  fits_max_digits (row_total_price r) = true ->
  fits_max_digits (row_total_price (updated_row d l' r)) = true ->
  exists resp db' r',
    BookingViewSet_update today request k d db = Ok (resp, db') /\
    status_code resp = HTTP_200_OK /\
    bookings db' !! k = Some r' /\
    row_check_in r' = data_check_in d /\ row_check_out r' = data_check_out d /\
    row_guests_count r' = data_guests_count d /\
    (data_check_in d < data_check_out d ->
     row_total_price r'
       = price_per_night l' * (data_check_out d - data_check_in d)) /\
    (data_check_out d <= data_check_in d ->
     row_total_price r' = row_total_price r).
Proof.
  intros Hr Hl Hq Hl' [Hg _] _ _.
  rewrite (update_stored today request k d db r l l' Hr Hl Hq Hl' Hg).
  eexists _, _, _. split; [reflexivity|]. split; [reflexivity|].
  simpl. rewrite lookup_insert_eq.
  split; [reflexivity|]. simpl. repeat split.
  - intros Hd. destruct (Z.ltb_spec 0 (data_check_out d - data_check_in d));
      [reflexivity | lia].
  - intros Hd. destruct (Z.ltb_spec 0 (data_check_out d - data_check_in d));
      [lia | reflexivity].
Qed.

(** Booking 7, three nights for 300.00, is moved by its guest to end the
    day before it starts, for nine guests: it still costs 300.00. *)
Lemma update_accepts_any_dates_witness :
  exists resp db' r',
    BookingViewSet_update (ymd 2024 5 1) ex_request 7
      (mkRequestData 1%nat (ymd 2024 6 4) (ymd 2024 6 3) 9 "")
      (ex_db_booked 10000 pending)
      = Ok (resp, db') /\
    status_code resp = HTTP_200_OK /\
    bookings db' !! 7%nat = Some r' /\
    row_check_in r' = ymd 2024 6 4 /\ row_check_out r' = ymd 2024 6 3 /\
    row_guests_count r' = 9 /\ row_total_price r' = 30000.
Proof.
  destruct (update_accepts_any_dates (ymd 2024 5 1) ex_request 7
              (mkRequestData 1%nat (ymd 2024 6 4) (ymd 2024 6 3) 9 "")
              (ex_db_booked 10000 pending) (ex_row pending) ex_listing
              ex_listing)
    as (resp & db' & r' & Hu & Hcode & Hr' & Hci & Hco & Hg & _ & Hp);
    [reflexivity | reflexivity | reflexivity | reflexivity
    | simpl; lia | reflexivity | reflexivity |].
  exists resp, db', r'. split; [exact Hu|]. split; [exact Hcode|].
  split; [exact Hr'|].
  split; [exact Hci|]. split; [exact Hco|]. split; [exact Hg|].
  rewrite Hp; [reflexivity | vm_compute; discriminate].
Defined.

(** X18. Deleting a booking takes its reviews with it and nothing else: a
    204 comes only for a stored booking of which the requesting user is
    the guest or the listing's host; afterwards the booking is gone, the
    reviews left are exactly those of other bookings, and the listings and
    the other bookings are as before.  Any other answer is a 404 that
    changes nothing. *)
Theorem destroy_cascades_to_reviews (today : date) (request : Request)
  (k : nat) (db : DB) (code : Z) (db' : DB) :
  BookingViewSet_destroy today request k db = Ok (code, db') ->
  (code = HTTP_404_NOT_FOUND /\ db' = db) \/
  (code = HTTP_204_NO_CONTENT /\
   (exists r l, bookings db !! k = Some r /\
      listings db !! row_listing_id r = Some l /\
      (row_guest r = user request \/ host l = user request)) /\
   bookings db' !! k = None /\
   (forall k', k' ≠ k -> bookings db' !! k' = bookings db !! k') /\
   listings db' = listings db /\
   (forall i rv, reviews db' !! i = Some rv <->
                 reviews db !! i = Some rv /\ review_booking_id rv ≠ k)).
Proof.
  unfold BookingViewSet_destroy. intros Hd.
  destruct (bookings db !! k) as [r|] eqn:Hr;
    [destruct (listings db !! row_listing_id r) as [l|] eqn:Hl|].
  - rewrite (get_object_stored today request k db r l Hr Hl) in Hd.
    destruct (get_queryset today request (from_row k r l)) eqn:Hq;
      simpl in Hd; injection Hd as <- <-; [right | left; auto].
    split; [reflexivity|]. split.
    { exists r, l. split; [done|]. split; [done|].
      exact (get_queryset_visible today request k r l Hq). }
    simpl. split; [apply lookup_delete_eq|]. split.
    { intros k' Hne. by rewrite lookup_delete_ne. }
    split; [reflexivity|].
    intros i rv. by rewrite map_lookup_filter_Some.
  - rewrite (get_object_dangling today request k db r Hr Hl) in Hd.
    simpl in Hd. injection Hd as <- <-. left. auto.
  - rewrite (get_object_missing today request k db Hr) in Hd.
    simpl in Hd. injection Hd as <- <-. left. auto.
Qed.

Lemma destroy_cascades_to_reviews_witness :
  exists db',
    BookingViewSet_destroy (ymd 2024 5 1) ex_request 7
      (mkDB {[ 1%nat := ex_listing ]} {[ 7%nat := ex_row completed ]}
            {[ 1%nat := mkReview 1%nat 7%nat 2%nat 5 "fine" ]})
      = Ok (HTTP_204_NO_CONTENT, db') /\
    bookings db' !! 7%nat = None /\ reviews db' !! 1%nat = None.
Proof.
  pose (db := mkDB {[ 1%nat := ex_listing ]} {[ 7%nat := ex_row completed ]}
                   {[ 1%nat := mkReview 1%nat 7%nat 2%nat 5 "fine" ]}).
  pose (db' := mkDB {[ 1%nat := ex_listing ]} ∅ ∅).
  assert (BookingViewSet_destroy (ymd 2024 5 1) ex_request 7 db
          = Ok (HTTP_204_NO_CONTENT, db')) as Hd by (vm_compute; reflexivity).
  exists db'. split; [exact Hd|].
  destruct (destroy_cascades_to_reviews _ _ _ _ _ _ Hd)
    as [[Hcode _]|(_ & _ & Hgone & _ & _ & Hrev)]; [discriminate Hcode|].
  split; [exact Hgone|].
  destruct (reviews db' !! 1%nat) as [rv|] eqn:Hrv; [|reflexivity].
  apply Hrev in Hrv as [Hrv Hne]. vm_compute in Hrv.
  injection Hrv as <-. by destruct Hne.
Defined.

(** ** Reviews through the API *)

(** X20. No review is ever created through the API: [ReviewSerializer]
    writes only [rating] and [comment], so the review that
    [perform_create] saves has neither listing nor booking and the insert
    raises [IntegrityError].  Whatever the field validation and the body,
    the create action either answers 400 or raises, and the database is
    never changed. *)
Theorem review_create_stores_nothing {D : Type}
  (is_valid : D -> ValidationError + ReviewAttrs) (request : Request)
  (d : D) (db : DB) :
  (forall attrs db0,
     Review_perform_create request attrs db0 = Raise IntegrityError) /\
  (forall attrs, is_valid d = inr attrs ->
     ReviewViewSet_create is_valid request d db = Raise IntegrityError) /\
  (forall code db', ReviewViewSet_create is_valid request d db = Ok (code, db')
     -> code = HTTP_400_BAD_REQUEST /\ db' = db).
Proof.
  split; [reflexivity|]. unfold ReviewViewSet_create. split.
  - intros attrs ->. reflexivity.
  - intros code db'. destruct (is_valid d) as [e|attrs].
    + by intros [= <- <-].
    + discriminate.
Qed.

(** ** More on the average rating *)

Lemma sum_between l lo hi :
  Forall (fun r => lo <= r <= hi) l ->
  lo * Z.of_nat (length l) <= sum l <= hi * Z.of_nat (length l).
Proof.
  induction 1 as [|x l Hx _ IH]; [unfold sum; simpl; lia|].
  rewrite sum_cons. simpl length. lia.
Qed.

(** X21. The average lies between the smallest and the largest rating: for
    ratings all between [lo] and [hi] (positive, within the column's range)
    the float returned is at least [lo] and at most [hi]; with the
    validators' range, between 1.0 and 5.0. *)
Theorem average_rating_within_ratings (db : DB) (k : nat) (lo hi : Z) :
  rating <$> Listing_reviews db k ≠ [] ->
  0 < lo -> hi <= 2147483647 ->
  Forall (fun r => lo <= r <= hi) (rating <$> Listing_reviews db k) ->
  Z.of_nat (length (rating <$> Listing_reviews db k)) < 2 ^ 63 ->
  exists m e, average_rating db k = Ok (PyFloat (S754_finite false m e)) /\
    e < 0 /\ lo * 2 ^ (- e) <= Zpos m <= hi * 2 ^ (- e).
Proof.
  intros Hne Hlo Hhi Hrange Hn. unfold average_rating.
  destruct (Listing_reviews db k) as [|rv l] eqn:Hrev; [by destruct Hne|].
  rewrite length_fmap in Hn.
  set (rs := rating <$> rv :: l) in *.
  set (n := Z.of_nat (length (rv :: l))) in *.
  assert (0 < n) as Hpos by (unfold n; simpl; lia).
  pose proof (sum_between rs lo hi Hrange) as Hsum.
  replace (Z.of_nat (length rs)) with n in Hsum
    by (unfold rs, n; by rewrite length_fmap).
  assert (0 < sum rs < 2 ^ 31 * n) as Hs.
  { change (2 ^ 31) with 2147483648.
    assert (1 * n <= lo * n) by (apply Z.mul_le_mono_nonneg_r; lia).
    assert (hi * n <= 2147483647 * n)
      by (apply Z.mul_le_mono_nonneg_r; lia).
    lia. }
  destruct (truediv_rounded (sum rs) n) as (f & Hf & Hr); [lia | lia |].
  rewrite Hf. simpl.
  destruct f as [[]|[]| |[] m e]; simpl in Hr; try tauto; [lia|].
  destruct Hr as (_ & _ & He & Hbd).
  exists m, e. split; [reflexivity|]. split; [exact He|].
  assert (0 < 2 ^ (- e)) as Hp by (apply Z.pow_pos_nonneg; lia).
  split; nia.
Qed.

Lemma average_rating_within_ratings_witness :
  exists m e,
    average_rating ex_db_reviewed 1 = Ok (PyFloat (S754_finite false m e)) /\
    e < 0 /\ 1 * 2 ^ (- e) <= Zpos m <= 5 * 2 ^ (- e).
Proof.
  assert (rating <$> Listing_reviews ex_db_reviewed 1 = [1; 2; 1]) as Hrs
    by (vm_compute; reflexivity).
  apply (average_rating_within_ratings ex_db_reviewed 1 1 5).
  - rewrite Hrs. discriminate.
  - reflexivity.
  - discriminate.
  - rewrite Hrs. repeat (constructor; [split; discriminate|]). constructor.
  - rewrite Hrs. reflexivity.
Defined.

Lemma sum_Permutation l1 l2 : l1 ≡ₚ l2 -> sum l1 = sum l2.
Proof.
  induction 1 as [|x l1 l2 _ IH|x y l|l1 l2 l3 _ IH1 _ IH2].
  - reflexivity.
  - rewrite !sum_cons. lia.
  - rewrite !sum_cons. lia.
  - congruence.
Qed.

(** The average of the reviews selected is the same for two selections
    that differ only in their order. *)
Lemma average_rating_Permutation db1 k1 db2 k2 :
  Listing_reviews db1 k1 ≡ₚ Listing_reviews db2 k2 ->
  average_rating db1 k1 = average_rating db2 k2.
Proof.
  intros Hperm. unfold average_rating.
  assert (sum (rating <$> Listing_reviews db1 k1)
          = sum (rating <$> Listing_reviews db2 k2)) as Hsum.
  { apply sum_Permutation. by apply fmap_Permutation. }
  pose proof (Permutation_length Hperm) as Hlen.
  destruct (Listing_reviews db1 k1) as [|x1 l1],
           (Listing_reviews db2 k2) as [|x2 l2]; try discriminate Hlen.
  - reflexivity.
  - by rewrite Hsum, Hlen.
Qed.

(** X22. The average of a listing counts the reviews of that listing and
    no others: storing a review of another listing leaves it as it was. *)
Theorem average_rating_ignores_other_listings (db : DB) (k i : nat)
  (rv : Review) :
  reviews db !! i = None -> review_listing_id rv ≠ k ->
  average_rating (mkDB (listings db) (bookings db) (<[i := rv]> (reviews db)))
                 k
  = average_rating db k.
Proof.
  intros Hi Hne. apply average_rating_Permutation.
  unfold Listing_reviews. simpl.
  rewrite (map_to_list_insert (reviews db) i rv Hi). simpl.
  by rewrite filter_cons_False.
Qed.

Lemma average_rating_ignores_other_listings_witness :
  average_rating
    (mkDB (listings ex_db_reviewed) (bookings ex_db_reviewed)
          (<[ 9%nat := mkReview 2%nat 14%nat 5%nat 5 "" ]>
             (reviews ex_db_reviewed))) 1
  = average_rating ex_db_reviewed 1.
Proof.
  apply average_rating_ignores_other_listings; [reflexivity | discriminate].
Defined.
